(** * MT5 bridge: a shallow embedding of [mt5_bridge.py] and
    [mt5_bridge_server.py], and the properties of their request/response
    contract.

    The two Python files are thin translation layers between a fixed set
    of commands and the MetaTrader5 terminal API.  The embedding keeps
    their shape:

    - Python values that cross the JSON boundary are the inductive
      [pyval]; dictionaries are association lists in insertion order;
      floats are IEEE binary64 (Rocq's primitive floats);
    - the terminal is an interface [Terminal T] over an arbitrary state
      [T]: every native call may answer or raise, and may change the
      state; theorems quantify over all terminals;
    - Python's own builtins ([int], [float], [str], [json.loads]) are an
      interface [Python];
    - effects are a state-and-exception monad [M] over a [world] that
      holds the terminal state, the log of every native call, print and
      socket send, and the server's set of connected clients. *)

From Stdlib Require Import ZArith String Ascii DecimalString List PrimFloat Uint63.
From stdpp Require Import base option list strings gmap.

Local Open Scope string_scope.
Local Open Scope Z_scope.

(** ** Python values *)

#[local] Set Warnings "-register-all".

Inductive pyval : Type :=
| PNone
| PBool (b : bool)
| PInt (z : Z)
| PFloat (f : float)
| PStr (s : string)
| PList (l : list pyval)
| PDict (d : list (string * pyval)).

(** A Python [dict] with string keys, in insertion order. *)
Definition dict : Type := list (string * pyval).

(** [d.get(k)] as an option. *)
Fixpoint dict_get (d : dict) (k : string) : option pyval :=
  match d with
  | [] => None
  | (k', v) :: d' => if String.eqb k' k then Some v else dict_get d' k
  end.

(** [d[k] = v]: overwrite in place, or append a new key. *)
Fixpoint dict_set (d : dict) (k : string) (v : pyval) : dict :=
  match d with
  | [] => [(k, v)]
  | (k', v') :: d' =>
      if String.eqb k' k then (k', v) :: d' else (k', v') :: dict_set d' k v
  end.

(** [k in d]. *)
Definition dict_has (d : dict) (k : string) : bool :=
  match dict_get d k with Some _ => true | None => false end.

(** [d.get(k, default)]. *)
Definition dict_get_default (d : dict) (k : string) (default : pyval) : pyval :=
  match dict_get d k with Some v => v | None => default end.

(** [type(v).__name__], as it appears in Python's error messages. *)
Definition type_name (v : pyval) : string :=
  match v with
  | PNone => "NoneType"
  | PBool _ => "bool"
  | PInt _ => "int"
  | PFloat _ => "float"
  | PStr _ => "str"
  | PList _ => "list"
  | PDict _ => "dict"
  end.

(** [v == s] for a string literal [s]. *)
Definition py_eq_str (v : pyval) (s : string) : bool :=
  match v with
  | PStr c => String.eqb c s
  | _ => false
  end.

(** ** Exceptions and results *)

(** The exception classes the two files name or can meet.  All of them
    derive from [Exception], so an [except Exception] clause catches
    every one. *)
Inductive exn_class : Type :=
| JSONDecodeError
| ConnectionClosed
| TypeError
| ValueError
| IndexError
| AttributeError
| OtherException.

Record exn : Type := Exn { exn_cls : exn_class; exn_msg : string }.

(** [str(e)]. *)
Definition str_exn (e : exn) : string := exn_msg e.

Definition is_JSONDecodeError (e : exn) : bool :=
  match exn_cls e with JSONDecodeError => true | _ => false end.

Definition is_ConnectionClosed (e : exn) : bool :=
  match exn_cls e with ConnectionClosed => true | _ => false end.

Inductive result (A : Type) : Type :=
| Ret (a : A)
| Raise (e : exn).
Arguments Ret {A} a.
Arguments Raise {A} e.

(** ** The Python runtime *)

(** Builtins of Python that the files call and that are no code of the
    repository.  [py_str] is [str(v)] inside an f-string for a value that
    is not already a string; [call_error f args] is the text of the
    [TypeError] raised when a call of [f] with the unpacked [args] does
    not fit the signature of [f], or [args] cannot be unpacked. *)
Class Python : Type := {
  py_int : pyval -> result Z;
  py_float : pyval -> result float;
  py_str : pyval -> string;
  json_loads : string -> result pyval;
  call_error : string -> pyval -> string
}.

(** ** Native objects of the MetaTrader5 package *)

Record AccountInfo : Type := {
  ai_login : Z;
  ai_balance : float;
  ai_equity : float;
  ai_margin : float;
  ai_server : string;
  ai_leverage : Z;
  ai_currency : string
}.

Record SymbolInfo : Type := {
  si_visible : bool;
  si_name : string;
  si_description : string;
  si_spread : Z;
  si_volume_min : float;
  si_volume_max : float
}.

Record Rate : Type := {
  r_time : Z;
  r_open : float;
  r_high : float;
  r_low : float;
  r_close : float;
  r_tick_volume : Z;
  r_spread : Z
}.

Record Tick : Type := {
  t_bid : float;
  t_ask : float;
  t_last : float;
  t_volume : Z;
  t_time : Z
}.

Record OrderSendResult : Type := {
  osr_retcode : Z;
  osr_order : Z;
  osr_volume : float;
  osr_price : float;
  osr_comment : string
}.

Record Position : Type := {
  pos_ticket : Z;
  pos_symbol : string;
  pos_type : Z;
  pos_volume : float;
  pos_price_open : float;
  pos_price_current : float;
  pos_profit : float;
  pos_swap : float;
  pos_commission : float
}.

(** The side codes: [# 0=buy, 1=sell] (mt5_bridge.py, line 285). *)
Definition ORDER_TYPE_BUY : Z := 0.
Definition ORDER_TYPE_SELL : Z := 1.

(** The other constants of the package that the files read; their values
    are the package's and play no part in the files' logic. *)
Class MT5Constants : Type := {
  TIMEFRAME_M1 : Z;
  TIMEFRAME_M5 : Z;
  TIMEFRAME_M15 : Z;
  TIMEFRAME_H1 : Z;
  TIMEFRAME_H4 : Z;
  TIMEFRAME_D1 : Z;
  TRADE_ACTION_DEAL : Z;
  ORDER_TIME_GTC : Z;
  ORDER_FILLING_IOC : Z;
  TRADE_RETCODE_DONE : Z
}.

(** ** The terminal *)

(** Every native call, with its arguments, as it is logged. *)
Inductive mt5_call : Type :=
| Initialize
| LastError
| GetAccountInfo
| Shutdown
| Login (login : Z) (password server : pyval)
| SymbolsGet
| CopyRatesFromPos (symbol : pyval) (timeframe start_pos count : Z)
| SymbolInfoTick (symbol : pyval)
| OrderSend (request : dict)
| PositionsGet (ticket : option Z).

(** The terminal as the files see it: each call answers or raises, and
    moves the terminal's state.  [ws_send] is the peer of the WebSocket
    ([await websocket.send(text)]), which raises once the peer is gone. *)
Class Terminal (T : Type) : Type := {
  mt5_initialize : T -> result bool * T;
  mt5_last_error : T -> result pyval * T;
  mt5_account_info : T -> result (option AccountInfo) * T;
  mt5_shutdown : T -> result unit * T;
  mt5_login : Z -> pyval -> pyval -> T -> result bool * T;
  mt5_symbols_get : T -> result (option (list SymbolInfo)) * T;
  mt5_copy_rates_from_pos :
    pyval -> Z -> Z -> Z -> T -> result (option (list Rate)) * T;
  mt5_symbol_info_tick : pyval -> T -> result (option Tick) * T;
  mt5_order_send : dict -> T -> result (option OrderSendResult) * T;
  mt5_positions_get : option Z -> T -> result (option (list Position)) * T;
  ws_send : pyval -> T -> result unit * T
}.

(** ** The world and the monad *)

(** What the process does that can be seen from outside.  A JSON text is
    identified with the value it serialises: [Print v] is
    [print(json.dumps(v))] and [Send v] is
    [await websocket.send(json.dumps(v))]. *)
Inductive event : Type :=
| Mt5 (c : mt5_call)
| Print (doc : pyval)
| Send (doc : pyval).

Record world (T : Type) : Type := World {
  ext : T;
  log : list event;
  clients : gset nat
}.
Arguments World {T} ext log clients.
Arguments ext {T} w.
Arguments log {T} w.
Arguments clients {T} w.

Definition M (T A : Type) : Type := world T -> result A * world T.

Definition ret {T A} (a : A) : M T A := fun w => (Ret a, w).

Definition raise {T A} (c : exn_class) (msg : string) : M T A :=
  fun w => (Raise (Exn c msg), w).

Definition bind {T A B} (m : M T A) (f : A -> M T B) : M T B := fun w =>
  match m w with
  | (Ret a, w') => f a w'
  | (Raise e, w') => (Raise e, w')
  end.

Notation "'let*' x ':=' c1 'in' c2" := (bind c1 (fun x => c2))
  (at level 10, x pattern, c1 at level 100, c2 at level 200).
Notation "'do' c1 'then' c2" := (bind c1 (fun _ => c2))
  (at level 10, c1 at level 100, c2 at level 200).

(** A pure builtin that may raise. *)
Definition lift {T A} (r : result A) : M T A := fun w => (r, w).

(** [try: m  except Exception as e: h e]. *)
Definition try_except {T A} (m : M T A) (h : exn -> M T A) : M T A := fun w =>
  match m w with
  | (Ret a, w') => (Ret a, w')
  | (Raise e, w') => h e w'
  end.

(** [try: m  finally: f]: [f] runs on every way out of [m]; an exception
    of [f] replaces the outcome of [m]. *)
Definition try_finally {T A} (m : M T A) (f : M T unit) : M T A := fun w =>
  let (r, w1) := m w in
  match f w1 with
  | (Ret _, w2) => (r, w2)
  | (Raise e, w2) => (Raise e, w2)
  end.

(** A native call: logged, then answered by the terminal. *)
Definition call {T A} (c : mt5_call) (f : T -> result A * T) : M T A := fun w =>
  let (r, t') := f (ext w) in
  (r, World t' (log w ++ [Mt5 c]) (clients w)).

(** [print(json.dumps(v))]. *)
Definition print {T} (v : pyval) : M T unit := fun w =>
  (Ret tt, World (ext w) (log w ++ [Print v]) (clients w)).

(** [await websocket.send(json.dumps(v))]. *)
Definition send {T} {mt5 : Terminal T} (v : pyval) : M T unit := fun w =>
  let (r, t') := ws_send v (ext w) in
  (r, World t' (log w ++ [Send v]) (clients w)).

Definition clients_add {T} (ws : nat) : M T unit := fun w =>
  (Ret tt, World (ext w) (log w) ({[ws]} ∪ clients w)).

Definition clients_remove {T} (ws : nat) : M T unit := fun w =>
  (Ret tt, World (ext w) (log w) (clients w ∖ {[ws]})).

(** ** Pieces of Python shared by the two files *)

Section Shared.
Context {py : Python} {k : MT5Constants} {T : Type} {mt5 : Terminal T}.

(** [f"{v}"]. *)
Definition format (v : pyval) : string :=
  match v with
  | PStr s => s
  | _ => py_str v
  end.

(** [v > 0]. *)
Definition py_gt0 (v : pyval) : M T bool :=
  match v with
  | PInt z => ret (0 <? z)
  | PFloat f => ret (PrimFloat.ltb 0 f)
  | PBool b => ret b
  | _ =>
      raise TypeError
        ("'>' not supported between instances of '" ++ type_name v
           ++ "' and 'int'")
  end.

(** [{"success": False, "error": msg}]. *)
Definition failure (msg : string) : dict :=
  [("success", PBool false); ("error", PStr msg)].

(** The [tf_map] literal of [get_market_data]. *)
Definition tf_map : list (string * Z) :=
  [("M1", TIMEFRAME_M1); ("M5", TIMEFRAME_M5); ("M15", TIMEFRAME_M15);
   ("H1", TIMEFRAME_H1); ("H4", TIMEFRAME_H4); ("D1", TIMEFRAME_D1)].

Fixpoint assoc (l : list (string * Z)) (k : string) : option Z :=
  match l with
  | [] => None
  | (k', v) :: l' => if String.eqb k' k then Some v else assoc l' k
  end.

(** [tf_map.get(timeframe, mt5.TIMEFRAME_M1)]: a key that is no string
    of the table gives the default; a list or a dict cannot be hashed. *)
Definition tf_map_get (timeframe : pyval) : M T Z :=
  match timeframe with
  | PStr s => ret (match assoc tf_map s with Some c => c | None => TIMEFRAME_M1 end)
  | PList _ | PDict _ =>
      raise TypeError ("unhashable type: '" ++ type_name timeframe ++ "'")
  | _ => ret TIMEFRAME_M1
  end.

(** The [account] dictionary of the two connect operations. *)
Definition account_dict (a : AccountInfo) : dict :=
  [("login", PInt (ai_login a));
   ("balance", PFloat (ai_balance a));
   ("equity", PFloat (ai_equity a));
   ("margin", PFloat (ai_margin a));
   ("server", PStr (ai_server a));
   ("leverage", PInt (ai_leverage a));
   ("currency", PStr (ai_currency a))].

(** ['USD' in name]. *)
Definition contains (needle hay : string) : bool :=
  match String.index 0 needle hay with Some _ => true | None => false end.

Definition symbol_dict (s : SymbolInfo) : dict :=
  [("name", PStr (si_name s));
   ("description", PStr (si_description s));
   ("spread", PInt (si_spread s));
   ("volume_min", PFloat (si_volume_min s));
   ("volume_max", PFloat (si_volume_max s))].

Definition rate_dict (r : Rate) : dict :=
  [("time", PInt (r_time r));
   ("open", PFloat (r_open r));
   ("high", PFloat (r_high r));
   ("low", PFloat (r_low r));
   ("close", PFloat (r_close r));
   ("tick_volume", PInt (r_tick_volume r));
   ("spread", PInt (r_spread r))].

Definition tick_dict (symbol : pyval) (t : Tick) : dict :=
  [("symbol", symbol);
   ("bid", PFloat (t_bid t));
   ("ask", PFloat (t_ask t));
   ("last", PFloat (t_last t));
   ("volume", PInt (t_volume t));
   ("time", PInt (t_time t))].

Definition order_dict (r : OrderSendResult) : dict :=
  [("ticket", PInt (osr_order r));
   ("volume", PFloat (osr_volume r));
   ("price", PFloat (osr_price r));
   ("comment", PStr (osr_comment r))].

Definition position_dict (p : Position) : dict :=
  [("ticket", PInt (pos_ticket p));
   ("symbol", PStr (pos_symbol p));
   ("type", PInt (pos_type p));
   ("volume", PFloat (pos_volume p));
   ("price_open", PFloat (pos_price_open p));
   ("price_current", PFloat (pos_price_current p));
   ("profit", PFloat (pos_profit p));
   ("swap", PFloat (pos_swap p));
   ("commission", PFloat (pos_commission p))].

(** The [close_request] literal of [close_position]. *)
Definition close_request (position : Position) : dict :=
  [("action", PInt TRADE_ACTION_DEAL);
   ("symbol", PStr (pos_symbol position));
   ("volume", PFloat (pos_volume position));
   ("type", PInt (if pos_type position =? ORDER_TYPE_BUY
                  then ORDER_TYPE_SELL else ORDER_TYPE_BUY));
   ("position", PInt (pos_ticket position));
   ("type_time", PInt ORDER_TIME_GTC);
   ("type_filling", PInt ORDER_FILLING_IOC);
   ("comment", PStr "Position closed by trading bot")].

(** The text of the [AttributeError] that [result.retcode] raises when
    [result] is [None]. *)
Definition none_has_no_retcode : string :=
  "'NoneType' object has no attribute 'retcode'".

End Shared.

(** ** mt5_bridge.py: the one-shot Command Executor *)

Module Bridge.
Section Bridge.
Context {py : Python} {k : MT5Constants} {T : Type} {mt5 : Terminal T}.

Definition connect_mt5 : M T dict :=
  let* ok := call Initialize mt5_initialize in
  if negb ok then
    let* err := call LastError mt5_last_error in
    ret (failure ("initialize() failed, error code = " ++ format err))
  else
    let* account_info := call GetAccountInfo mt5_account_info in
    match account_info with
    | None => ret (failure "Failed to get account info")
    | Some a => ret [("success", PBool true); ("account", PDict (account_dict a))]
    end.

Definition connect_with_credentials (login password server : pyval) : M T dict :=
  do call Shutdown mt5_shutdown then
  let* ok := call Initialize mt5_initialize in
  if negb ok then
    let* err := call LastError mt5_last_error in
    ret (failure ("initialize() failed, error code = " ++ format err))
  else
    let* n := lift (py_int login) in
    let* login_result := call (Login n password server) (mt5_login n password server) in
    if negb login_result then
      let* error_code := call LastError mt5_last_error in
      do call Shutdown mt5_shutdown then
      ret (failure ("Login failed, error code = " ++ format error_code))
    else
      let* account_info := call GetAccountInfo mt5_account_info in
      match account_info with
      | None =>
          do call Shutdown mt5_shutdown then
          ret (failure "Failed to get account info after login")
      | Some a => ret [("success", PBool true); ("account", PDict (account_dict a))]
      end.

Definition get_symbols : M T dict :=
  let* symbols := call SymbolsGet mt5_symbols_get in
  match symbols with
  | None => ret (failure "No symbols found")
  | Some symbols =>
      let symbol_list :=
        map (fun s => PDict (symbol_dict s))
          (List.filter (fun s => si_visible s && contains "USD" (si_name s)) symbols) in
      ret [("success", PBool true); ("symbols", PList symbol_list)]
  end.

Definition get_market_data (symbol timeframe : pyval) (count : Z) : M T dict :=
  try_except
    (let* timeframe_mt5 := tf_map_get timeframe in
     let* rates :=
       call (CopyRatesFromPos symbol timeframe_mt5 0 count)
         (mt5_copy_rates_from_pos symbol timeframe_mt5 0 count) in
     match rates with
     | None => ret (failure ("Failed to get rates for " ++ format symbol))
     | Some rates =>
         ret [("success", PBool true);
              ("data", PList (map (fun r => PDict (rate_dict r)) rates))]
     end)
    (fun e => ret (failure (str_exn e))).

Definition get_tick_data (symbol : pyval) : M T dict :=
  try_except
    (let* tick := call (SymbolInfoTick symbol) (mt5_symbol_info_tick symbol) in
     match tick with
     | None => ret (failure ("Failed to get tick for " ++ format symbol))
     | Some t => ret [("success", PBool true); ("tick", PDict (tick_dict symbol t))]
     end)
    (fun e => ret (failure (str_exn e))).

Definition place_order
  (symbol order_type volume price sl tp comment : pyval) : M T dict :=
  try_except
    (let request : dict :=
       [("action", PInt TRADE_ACTION_DEAL);
        ("symbol", symbol);
        ("volume", volume);
        ("type", order_type);
        ("comment", comment);
        ("type_time", PInt ORDER_TIME_GTC);
        ("type_filling", PInt ORDER_FILLING_IOC)] in
     let* c := py_gt0 price in
     let request := if c then dict_set request "price" price else request in
     let* c := py_gt0 sl in
     let request := if c then dict_set request "sl" sl else request in
     let* c := py_gt0 tp in
     let request := if c then dict_set request "tp" tp else request in
     let* result := call (OrderSend request) (mt5_order_send request) in
     match result with
     | None => ret (failure "Order send failed")
     | Some r =>
         if negb (osr_retcode r =? TRADE_RETCODE_DONE) then
           ret (failure ("Order failed: " ++ osr_comment r))
         else
           ret [("success", PBool true); ("order", PDict (order_dict r))]
     end)
    (fun e => ret (failure (str_exn e))).

Definition get_positions : M T dict :=
  try_except
    (let* positions := call (PositionsGet None) (mt5_positions_get None) in
     match positions with
     | None => ret [("success", PBool true); ("positions", PList [])]
     | Some positions =>
         ret [("success", PBool true);
              ("positions", PList (map (fun p => PDict (position_dict p)) positions))]
     end)
    (fun e => ret (failure (str_exn e))).

Definition close_position (ticket : Z) : M T dict :=
  try_except
    (let* positions :=
       call (PositionsGet (Some ticket)) (mt5_positions_get (Some ticket)) in
     match positions with
     | None | Some [] =>
         ret (failure ("Position " ++ format (PInt ticket) ++ " not found"))
     | Some (position :: _) =>
         let* result :=
           call (OrderSend (close_request position))
             (mt5_order_send (close_request position)) in
         match result with
         | None => raise AttributeError none_has_no_retcode
         | Some r =>
             if negb (osr_retcode r =? TRADE_RETCODE_DONE) then
               ret (failure ("Close failed: " ++ osr_comment r))
             else
               ret [("success", PBool true); ("closed_ticket", PInt ticket)]
         end
     end)
    (fun e => ret (failure (str_exn e))).

(** [sys.argv[i]]. *)
Definition argv_at (argv : list string) (i : nat) : M T string :=
  match nth_error argv i with
  | Some s => ret s
  | None => raise IndexError "list index out of range"
  end.

(** [sys.argv[i] if len(sys.argv) > i else default]. *)
Definition argv_or (argv : list string) (i : nat) (default : string) : string :=
  match nth_error argv i with
  | Some s => s
  | None => default
  end.

(** [float(sys.argv[i]) if len(sys.argv) > i else 0]. *)
Definition argv_float_or_0 (argv : list string) (i : nat) : M T pyval :=
  match nth_error argv i with
  | Some s => let* f := lift (py_float (PStr s)) in ret (PFloat f)
  | None => ret (PInt 0)
  end.

(** The [if]/[elif] chain inside the [try] of [main]. *)
Definition dispatch (argv : list string) (command : string) (connect_result : dict)
  : M T unit :=
  if String.eqb command "test_connection" then
    print (PDict connect_result)
  else if String.eqb command "connect_with_credentials" then
    let* login := argv_at argv 2 in
    let* password := argv_at argv 3 in
    let* server := argv_at argv 4 in
    let* result := connect_with_credentials (PStr login) (PStr password) (PStr server) in
    print (PDict result)
  else if String.eqb command "get_symbols" then
    let* result := get_symbols in
    print (PDict result)
  else if String.eqb command "get_market_data" then
    let symbol := argv_or argv 2 "EURUSD" in
    let timeframe := argv_or argv 3 "M1" in
    let* count :=
      match nth_error argv 4 with
      | Some s => lift (py_int (PStr s))
      | None => ret 100
      end in
    let* result := get_market_data (PStr symbol) (PStr timeframe) count in
    print (PDict result)
  else if String.eqb command "get_tick" then
    let symbol := argv_or argv 2 "EURUSD" in
    let* result := get_tick_data (PStr symbol) in
    print (PDict result)
  else if String.eqb command "place_order" then
    let* symbol := argv_at argv 2 in
    let* a3 := argv_at argv 3 in
    let* order_type := lift (py_int (PStr a3)) in
    let* a4 := argv_at argv 4 in
    let* volume := lift (py_float (PStr a4)) in
    let* price := argv_float_or_0 argv 5 in
    let* sl := argv_float_or_0 argv 6 in
    let* tp := argv_float_or_0 argv 7 in
    let comment := argv_or argv 8 "" in
    let* result :=
      place_order (PStr symbol) (PInt order_type) (PFloat volume) price sl tp
        (PStr comment) in
    print (PDict result)
  else if String.eqb command "get_positions" then
    let* result := get_positions in
    print (PDict result)
  else if String.eqb command "close_position" then
    let* a2 := argv_at argv 2 in
    let* ticket := lift (py_int (PStr a2)) in
    let* result := close_position ticket in
    print (PDict result)
  else if String.eqb command "shutdown" then
    do call Shutdown mt5_shutdown then
    print (PDict [("success", PBool true); ("message", PStr "MT5 connection closed")])
  else
    print (PDict (failure ("Unknown command: " ++ command))).

(** [main()], on [sys.argv].  [Ret tt] is a normal return; [Raise e] is
    an exception that leaves [main] uncaught: the interpreter prints a
    traceback on stderr and the process ends with a non-zero status. *)
Definition main (argv : list string) : M T unit :=
  match argv with
  | [] | [_] => print (PDict (failure "No command provided"))
  | _ :: command :: _ =>
      let* connect_result := connect_mt5 in
      match dict_get connect_result "success" with
      | Some (PBool true) =>
          try_finally (dispatch argv command connect_result)
            (call Shutdown mt5_shutdown)
      | _ => print (PDict connect_result)
      end
  end.

End Bridge.
End Bridge.

(** ** mt5_bridge_server.py: the Session Server *)

Module Server.
Section Server.
Context {py : Python} {k : MT5Constants} {T : Type} {mt5 : Terminal T}.

Definition connect_mt5 : M T dict :=
  let* ok := call Initialize mt5_initialize in
  if negb ok then
    let* err := call LastError mt5_last_error in
    ret (failure ("initialize() failed, error code = " ++ format err))
  else
    let* account_info := call GetAccountInfo mt5_account_info in
    match account_info with
    | None => ret (failure "Failed to get account info")
    | Some a => ret [("success", PBool true); ("account", PDict (account_dict a))]
    end.

Definition connect_with_credentials (login password server : pyval) : M T dict :=
  do call Shutdown mt5_shutdown then
  let* ok := call Initialize mt5_initialize in
  if negb ok then
    let* err := call LastError mt5_last_error in
    ret (failure ("initialize() failed, error code = " ++ format err))
  else
    let* n := lift (py_int login) in
    let* login_result := call (Login n password server) (mt5_login n password server) in
    if negb login_result then
      let* error_code := call LastError mt5_last_error in
      do call Shutdown mt5_shutdown then
      ret (failure ("Login failed, error code = " ++ format error_code))
    else
      let* account_info := call GetAccountInfo mt5_account_info in
      match account_info with
      | None =>
          do call Shutdown mt5_shutdown then
          ret (failure "Failed to get account info after login")
      | Some a => ret [("success", PBool true); ("account", PDict (account_dict a))]
      end.

Definition get_symbols : M T dict :=
  let* symbols := call SymbolsGet mt5_symbols_get in
  match symbols with
  | None => ret (failure "No symbols found")
  | Some symbols =>
      let symbol_list :=
        map (fun s => PDict (symbol_dict s))
          (List.filter (fun s => si_visible s && contains "USD" (si_name s)) symbols) in
      ret [("success", PBool true); ("symbols", PList symbol_list)]
  end.

Definition get_market_data (symbol timeframe count : pyval) : M T dict :=
  try_except
    (let* timeframe_mt5 := tf_map_get timeframe in
     let* n := lift (py_int count) in
     let* rates :=
       call (CopyRatesFromPos symbol timeframe_mt5 0 n)
         (mt5_copy_rates_from_pos symbol timeframe_mt5 0 n) in
     match rates with
     | None => ret (failure ("Failed to get rates for " ++ format symbol))
     | Some rates =>
         ret [("success", PBool true);
              ("data", PList (map (fun r => PDict (rate_dict r)) rates))]
     end)
    (fun e => ret (failure (str_exn e))).

Definition get_tick_data (symbol : pyval) : M T dict :=
  try_except
    (let* tick := call (SymbolInfoTick symbol) (mt5_symbol_info_tick symbol) in
     match tick with
     | None => ret (failure ("Failed to get tick for " ++ format symbol))
     | Some t => ret [("success", PBool true); ("tick", PDict (tick_dict symbol t))]
     end)
    (fun e => ret (failure (str_exn e))).

(** [if float(v) > 0: request[k] = float(v)]. *)
Definition set_if_positive (request : dict) (k : string) (v : pyval) : M T dict :=
  let* f := lift (py_float v) in
  if PrimFloat.ltb 0 f then
    let* f' := lift (py_float v) in
    ret (dict_set request k (PFloat f'))
  else ret request.

Definition place_order
  (symbol order_type volume price sl tp comment : pyval) : M T dict :=
  try_except
    (let* vol := lift (py_float volume) in
     let* ty := lift (py_int order_type) in
     let request : dict :=
       [("action", PInt TRADE_ACTION_DEAL);
        ("symbol", symbol);
        ("volume", PFloat vol);
        ("type", PInt ty);
        ("comment", comment);
        ("type_time", PInt ORDER_TIME_GTC);
        ("type_filling", PInt ORDER_FILLING_IOC)] in
     let* request := set_if_positive request "price" price in
     let* request := set_if_positive request "sl" sl in
     let* request := set_if_positive request "tp" tp in
     let* result := call (OrderSend request) (mt5_order_send request) in
     match result with
     | None => ret (failure "Order send failed")
     | Some r =>
         if negb (osr_retcode r =? TRADE_RETCODE_DONE) then
           ret (failure ("Order failed: " ++ osr_comment r))
         else
           ret [("success", PBool true); ("order", PDict (order_dict r))]
     end)
    (fun e => ret (failure (str_exn e))).

Definition get_positions : M T dict :=
  try_except
    (let* positions := call (PositionsGet None) (mt5_positions_get None) in
     match positions with
     | None => ret [("success", PBool true); ("positions", PList [])]
     | Some positions =>
         ret [("success", PBool true);
              ("positions", PList (map (fun p => PDict (position_dict p)) positions))]
     end)
    (fun e => ret (failure (str_exn e))).

Definition close_position (ticket : pyval) : M T dict :=
  try_except
    (let* n := lift (py_int ticket) in
     let* positions := call (PositionsGet (Some n)) (mt5_positions_get (Some n)) in
     match positions with
     | None | Some [] =>
         ret (failure ("Position " ++ format ticket ++ " not found"))
     | Some (position :: _) =>
         let* result :=
           call (OrderSend (close_request position))
             (mt5_order_send (close_request position)) in
         match result with
         | None => raise AttributeError none_has_no_retcode
         | Some r =>
             if negb (osr_retcode r =? TRADE_RETCODE_DONE) then
               ret (failure ("Close failed: " ++ osr_comment r))
             else
               let* n' := lift (py_int ticket) in
               ret [("success", PBool true); ("closed_ticket", PInt n')]
         end
     end)
    (fun e => ret (failure (str_exn e))).

Definition shutdown_mt5 : M T dict :=
  do call Shutdown mt5_shutdown then
  ret [("success", PBool true); ("message", PStr "MT5 connection closed")].

(** [data.get(k, default)]: only a dict has the method. *)
Definition py_get (data : pyval) (k : string) (default : pyval) : M T pyval :=
  match data with
  | PDict d => ret (dict_get_default d k default)
  | _ =>
      raise AttributeError
        ("'" ++ type_name data ++ "' object has no attribute 'get'")
  end.

(** A byte that continues a UTF-8 character: 10xxxxxx. *)
Definition is_continuation (c : ascii) : bool :=
  match c with
  | Ascii _ _ _ _ _ _ b6 b7 => b7 && negb b6
  end.

(** The characters of a Python [str], which a Rocq string holds as its
    UTF-8 bytes: a byte opens a character unless it is a continuation
    byte, which belongs to the character before it. *)
Fixpoint characters (s : string) : list string :=
  match s with
  | EmptyString => []
  | String c s' =>
      match characters s' with
      | [] => [String c EmptyString]
      | EmptyString :: t => String c EmptyString :: t
      | String c' h :: t =>
          if is_continuation c'
          then String c (String c' h) :: t
          else String c EmptyString :: String c' h :: t
      end
  end.

(** The positional arguments that a starred [args] unpacks to: the
    items of a list, the characters of a string, the keys of a dict;
    anything else is not iterable. *)
Definition unpack (fname : string) (args : pyval) : M T (list pyval) :=
  match args with
  | PList l => ret l
  | PStr s => ret (map PStr (characters s))
  | PDict d => ret (map (fun kv => PStr (fst kv)) d)
  | _ => raise TypeError (call_error fname args)
  end.

(** The [if]/[elif] chain inside the [try] of [process_command]; the
    number of unpacked arguments must fit the signature of the method. *)
Definition dispatch (command args : pyval) : M T dict :=
  if py_eq_str command "test_connection" then
    connect_mt5
  else if py_eq_str command "connect_with_credentials" then
    let* a := unpack "connect_with_credentials" args in
    match a with
    | [login; password; server] => connect_with_credentials login password server
    | _ => raise TypeError (call_error "connect_with_credentials" args)
    end
  else if py_eq_str command "get_symbols" then
    get_symbols
  else if py_eq_str command "get_market_data" then
    let* a := unpack "get_market_data" args in
    match a with
    | [symbol] => get_market_data symbol (PStr "M1") (PInt 100)
    | [symbol; timeframe] => get_market_data symbol timeframe (PInt 100)
    | [symbol; timeframe; count] => get_market_data symbol timeframe count
    | _ => raise TypeError (call_error "get_market_data" args)
    end
  else if py_eq_str command "get_tick" then
    let* a := unpack "get_tick_data" args in
    match a with
    | [symbol] => get_tick_data symbol
    | _ => raise TypeError (call_error "get_tick_data" args)
    end
  else if py_eq_str command "place_order" then
    let* a := unpack "place_order" args in
    match a with
    | [symbol; order_type; volume] =>
        place_order symbol order_type volume (PInt 0) (PInt 0) (PInt 0) (PStr "")
    | [symbol; order_type; volume; price] =>
        place_order symbol order_type volume price (PInt 0) (PInt 0) (PStr "")
    | [symbol; order_type; volume; price; sl] =>
        place_order symbol order_type volume price sl (PInt 0) (PStr "")
    | [symbol; order_type; volume; price; sl; tp] =>
        place_order symbol order_type volume price sl tp (PStr "")
    | [symbol; order_type; volume; price; sl; tp; comment] =>
        place_order symbol order_type volume price sl tp comment
    | _ => raise TypeError (call_error "place_order" args)
    end
  else if py_eq_str command "get_positions" then
    get_positions
  else if py_eq_str command "close_position" then
    let* a := unpack "close_position" args in
    match a with
    | [ticket] => close_position ticket
    | _ => raise TypeError (call_error "close_position" args)
    end
  else if py_eq_str command "shutdown" then
    shutdown_mt5
  else
    ret (failure ("Unknown command: " ++ format command)).

Definition process_command (data : pyval) : M T pyval :=
  let* command_id := py_get data "id" PNone in
  let* command := py_get data "command" PNone in
  let* args := py_get data "args" (PList []) in
  try_except
    (let* result := dispatch command args in
     ret (PDict [("id", command_id);
                 ("success", dict_get_default result "success" (PBool true));
                 ("result", PDict result)]))
    (fun e =>
       ret (PDict [("id", command_id);
                   ("success", PBool false);
                   ("error", PStr (str_exn e))])).

(** The reply to a message that is no JSON text. *)
Definition invalid_json_response : pyval :=
  PDict [("id", PNone); ("success", PBool false); ("error", PStr "Invalid JSON format")].

(** The two [except] clauses around one message, in their order.  [data]
    is the local variable of [handle_client]: unbound ([None] here) until
    a first message has decoded, and then the last decoded message. *)
Definition on_error (data : option pyval) (e : exn) : M T unit :=
  if is_JSONDecodeError e then
    send invalid_json_response
  else
    let* id :=
      match data with
      | Some d => py_get d "id" PNone
      | None => ret PNone
      end in
    send (PDict [("id", id); ("success", PBool false); ("error", PStr (str_exn e))]).

(** The body of the [async for] loop; it returns the new binding of
    [data]. *)
Definition handle_message (data : option pyval) (message : string)
  : M T (option pyval) :=
  match json_loads message with
  | Raise e =>
      do on_error data e then
      ret data
  | Ret d =>
      do try_except
           (let* response := process_command d in
            send response)
           (on_error (Some d)) then
      ret (Some d)
  end.

Fixpoint receive_loop (data : option pyval) (messages : list string)
  (closing : result unit) : M T unit :=
  match messages with
  | [] => lift closing
  | message :: rest =>
      let* data' := handle_message data message in
      receive_loop data' rest closing
  end.

(** [handle_client] on the messages that the connection delivers;
    [closing] is how the iteration over the socket ends: it stops, or it
    raises.  [Raise e] from [handle_client] is an exception that leaves
    the handler, which ends this connection. *)
Definition handle_client (websocket : nat) (messages : list string)
  (closing : result unit) : M T unit :=
  do clients_add websocket then
  try_finally
    (try_except
       (receive_loop None messages closing)
       (fun e => if is_ConnectionClosed e then ret tt else lift (Raise e)))
    (clients_remove websocket).

End Server.
End Server.

(** ** The words of the specification *)


(** The timeframes that [tf_map] knows. *)
Definition known_timeframes : list string :=
  ["M1"; "M5"; "M15"; "H1"; "H4"; "D1"].

(** "Strictly greater than zero" for a number given to the one-shot
    [place_order]: an [int] (the default [0]) or a [float]. *)
Definition gt0 (v : pyval) : bool :=
  match v with
  | PInt z => 0 <? z
  | PFloat f => PrimFloat.ltb 0 f
  | _ => false
  end.

Definition is_number (v : pyval) : Prop :=
  match v with
  | PInt _ | PFloat _ => True
  | _ => False
  end.

(** The Result Envelope as the specification words it: exactly one of a
    result payload with [success: true], or a non-empty top-level error
    message with [success: false]. *)
Definition envelope_as_specified (resp : dict) : Prop :=
  (dict_get resp "success" = Some (PBool true)
   /\ dict_has resp "result" = true /\ dict_has resp "error" = false)
  \/ (dict_get resp "success" = Some (PBool false)
      /\ (exists msg, dict_get resp "error" = Some (PStr msg) /\ msg <> "")
      /\ dict_has resp "result" = false).

(** What an operation of the adapter returns: a dict with a boolean
    [success], with a textual [error] exactly when [success] is false. *)
Definition operation_envelope (r : dict) : Prop :=
  exists b : bool,
    dict_get r "success" = Some (PBool b)
    /\ if b then dict_get r "error" = None
       else exists msg, dict_get r "error" = Some (PStr msg).

(** A closing order for [position]: the same symbol, the full volume,
    and the inverse side. *)
Definition closes (position : Position) (request : dict) : Prop :=
  dict_get request "symbol" = Some (PStr (pos_symbol position))
  /\ dict_get request "volume" = Some (PFloat (pos_volume position))
  /\ (pos_type position = ORDER_TYPE_BUY ->
      dict_get request "type" = Some (PInt ORDER_TYPE_SELL))
  /\ (pos_type position = ORDER_TYPE_SELL ->
      dict_get request "type" = Some (PInt ORDER_TYPE_BUY)).

(** What [close_position] owes for the ticket [n], shown as [shown] in
    messages, when the terminal answers the lookup of [n] with
    [positions] and moves to [t']: with a position, one closing order
    after the lookup; with none, the not-found failure and no order. *)
Definition close_position_spec {T} (n : Z) (shown : string)
  (positions : option (list Position)) (w : world T) (t' : T)
  (out : result dict * world T) : Prop :=
  match positions with
  | Some (position :: _) =>
      exists request : dict,
        closes position request
        /\ log (snd out)
           = (log w ++ [Mt5 (PositionsGet (Some n)); Mt5 (OrderSend request)])%list
  | _ =>
      out
      = (Ret [("success", PBool false);
              ("error", PStr ("Position " ++ shown ++ " not found"))],
         World t' (log w ++ [Mt5 (PositionsGet (Some n))]) (clients w))
  end.

(** Whenever [m] returns, it returns an operation envelope. *)
Definition returns_envelope {T} (m : M T dict) : Prop :=
  forall (w w' : world T) (r : dict), m w = (Ret r, w') -> operation_envelope r.


(** ** A sample runtime and terminal

    One concrete [Python] and one concrete [Terminal], on which the
    model runs: they give the inputs at which the general statements
    are instantiated, and the inputs at which a statement fails. *)

Module Sample.

Definition digit_of (c : ascii) : option Z :=
  let n := Z.of_nat (nat_of_ascii c) in
  if (48 <=? n) && (n <=? 57) then Some (n - 48) else None.

Fixpoint parse_digits (acc : Z) (s : string) : option Z :=
  match s with
  | EmptyString => Some acc
  | String c s' =>
      match digit_of c with
      | Some d => parse_digits (10 * acc + d) s'
      | None => None
      end
  end.

Definition sample_int (v : pyval) : result Z :=
  match v with
  | PInt z => Ret z
  | PBool b => Ret (if b then 1 else 0)
  | PStr (String c s' as s) =>
      match parse_digits 0 s with
      | Some z => Ret z
      | None => Raise (Exn ValueError ("invalid literal for int() with base 10: '" ++ s ++ "'"))
      end
  | PStr EmptyString =>
      Raise (Exn ValueError "invalid literal for int() with base 10: ''")
  | _ => Raise (Exn TypeError ("int() argument must be a string or a real number, not '"
                                 ++ type_name v ++ "'"))
  end.

Definition sample_float (v : pyval) : result float :=
  match v with
  | PFloat f => Ret f
  | PBool b => Ret (if b then 1%float else 0%float)
  | _ =>
      match sample_int v with
      | Ret z => Ret (PrimFloat.of_uint63 (Uint63.of_Z z))
      | Raise e => Raise e
      end
  end.

Definition sample_str (v : pyval) : string :=
  match v with
  | PNone => "None"
  | PBool true => "True"
  | PBool false => "False"
  | PStr s => s
  | PInt z => NilZero.string_of_int (Z.to_int z)
  | _ => "<" ++ type_name v ++ ">"
  end.

(** Only a few texts decode. *)
Definition sample_loads (s : string) : result pyval :=
  if String.eqb s "{}" then Ret (PDict [])
  else if String.eqb s "[]" then Ret (PList [])
  else if String.eqb s "null" then Ret PNone
  else Raise (Exn JSONDecodeError "Expecting value: line 1 column 1 (char 0)").

Definition python : Python := {|
  py_int := sample_int;
  py_float := sample_float;
  py_str := sample_str;
  json_loads := sample_loads;
  call_error := fun f _ => f ++ "() got unexpected arguments"
|}.

(** The codes of the MetaTrader5 package. *)
Definition constants : MT5Constants := {|
  TIMEFRAME_M1 := 1;
  TIMEFRAME_M5 := 5;
  TIMEFRAME_M15 := 15;
  TIMEFRAME_H1 := 16385;
  TIMEFRAME_H4 := 16388;
  TIMEFRAME_D1 := 16408;
  TRADE_ACTION_DEAL := 1;
  ORDER_TIME_GTC := 0;
  ORDER_FILLING_IOC := 1;
  TRADE_RETCODE_DONE := 10009
|}.

(** A terminal whose answers are read off its state. *)
Record state : Type := State {
  available : bool;
  account : option AccountInfo;
  positions : list Position;
  order_result : option OrderSendResult;
  rates : list Rate
}.

Definition terminal : Terminal state := {|
  mt5_initialize := fun st => (Ret (available st), st);
  mt5_last_error := fun st => (Ret (PList [PInt (-10003); PStr "IPC initialize failed"]), st);
  mt5_account_info := fun st => (Ret (account st), st);
  mt5_shutdown := fun st => (Ret tt, st);
  mt5_login := fun _ _ _ st => (Ret true, st);
  mt5_symbols_get := fun st => (Ret (Some []), st);
  mt5_copy_rates_from_pos := fun _ _ _ _ st => (Ret (Some (rates st)), st);
  mt5_symbol_info_tick := fun _ st => (Ret None, st);
  mt5_order_send := fun _ st => (Ret (order_result st), st);
  mt5_positions_get := fun ticket st =>
    match ticket with
    | None => (Ret (Some (positions st)), st)
    | Some n => (Ret (Some (List.filter (fun p => pos_ticket p =? n) (positions st))), st)
    end;
  ws_send := fun _ st => (Ret tt, st)
|}.

Definition demo_account : AccountInfo := {|
  ai_login := 5001;
  ai_balance := 10000%float;
  ai_equity := 10000%float;
  ai_margin := 0%float;
  ai_server := "Demo-Server";
  ai_leverage := 100;
  ai_currency := "USD"
|}.

Definition buy_position : Position := {|
  pos_ticket := 7;
  pos_symbol := "EURUSD";
  pos_type := 0;
  pos_volume := 0.5%float;
  pos_price_open := 1.125%float;
  pos_price_current := 1.25%float;
  pos_profit := 50%float;
  pos_swap := 0%float;
  pos_commission := 0%float
|}.

Definition done_result : OrderSendResult := {|
  osr_retcode := 10009;
  osr_order := 8;
  osr_volume := 0.5%float;
  osr_price := 1.25%float;
  osr_comment := "Request executed"
|}.

(** A connected terminal with one open BUY position. *)
Definition connected : state :=
  State true (Some demo_account) [buy_position] (Some done_result) [].

(** A connected terminal with no open position, whose order-send call
    answers [None]. *)
Definition flat : state :=
  State true (Some demo_account) [] None [].

(** The same with the BUY position open. *)
Definition mute : state :=
  State true (Some demo_account) [buy_position] None [].

(** A terminal that cannot be initialised. *)
Definition unavailable : state :=
  State false None [] None [].

Definition start (st : state) : world state := World st [] ∅.

End Sample.

(** ** mt5_bridge_server.py: starting the server *)

Module ServerStartup.
Section ServerStartup.
Context {py : Python} {k : MT5Constants} {T : Type} {mt5 : Terminal T}.

(** [start_server].  The result of the connect is only written to the
    log file; [serve] stands for the body of the [async with], the
    event loop of the websockets package that runs [handle_client] for
    every connection until the process is stopped. *)
Definition start_server (serve : M T unit) : M T unit :=
  let* init_result := Server.connect_mt5 in
  serve.

(** [main()] of the server.  [KeyboardInterrupt] is no [Exception] and
    is no class of [exn_class]; the clause for it only writes to the
    log file, as the clause for [Exception] does. *)
Definition main (serve : M T unit) : M T unit :=
  let* ok := call Initialize mt5_initialize in
  if negb ok then ret tt
  else
    do call Shutdown mt5_shutdown then
    try_except (start_server serve) (fun e => ret tt).

End ServerStartup.
End ServerStartup.

(** ** Words for what the code does and does not do *)

(** An event that is a native call. *)
Definition is_call (ev : event) : Prop :=
  match ev with
  | Mt5 _ => True
  | _ => False
  end.

(** Any event. *)
Definition any_event (ev : event) : Prop := True.

(** [m] leaves the set of clients alone and only adds, to the log,
    events that are [allowed]. *)
Definition adds_only {T A} (allowed : event -> Prop) (m : M T A) : Prop :=
  forall w : world T,
    clients (snd (m w)) = clients w
    /\ exists evs : list event,
        log (snd (m w)) = (log w ++ evs)%list /\ Forall allowed evs.

(** The documents printed, in order. *)
Definition printed (evs : list event) : list pyval :=
  flat_map (fun ev => match ev with Print doc => [doc] | _ => [] end) evs.

(** A printed or sent document that is an operation envelope. *)
Definition envelope_doc (doc : pyval) : Prop :=
  match doc with
  | PDict r => operation_envelope r
  | _ => False
  end.

(** [k: v] when [v] is a number above zero, and nothing otherwise. *)
Definition optional_field (key : string) (v : pyval) : dict :=
  if gt0 v then [(key, v)] else [].

(** The request of the one-shot [place_order], written out: the seven
    fixed entries, then those of price, sl and tp that are above zero. *)
Definition order_request {k : MT5Constants}
  (symbol order_type volume price sl tp comment : pyval) : dict :=
  ([("action", PInt TRADE_ACTION_DEAL);
    ("symbol", symbol);
    ("volume", volume);
    ("type", order_type);
    ("comment", comment);
    ("type_time", PInt ORDER_TIME_GTC);
    ("type_filling", PInt ORDER_FILLING_IOC)]
   ++ optional_field "price" price
   ++ optional_field "sl" sl
   ++ optional_field "tp" tp)%list.

(** What an order-send answer [r] becomes: the success dict [ok] when
    the return code is TRADE_RETCODE_DONE, and otherwise a failure that
    quotes the terminal's comment after [prefix]. *)
Definition order_outcome {k : MT5Constants}
  (prefix : string) (ok : dict) (r : OrderSendResult) : dict :=
  if osr_retcode r =? TRADE_RETCODE_DONE then ok
  else [("success", PBool false); ("error", PStr (prefix ++ osr_comment r))].

(** The commands of the server that take arguments: the method each
    one calls, and the least and the greatest number of positional
    arguments that the method accepts. *)
Definition signatures : list (string * (string * nat * nat)) :=
  [("connect_with_credentials", ("connect_with_credentials", 3, 3)%nat);
   ("get_market_data", ("get_market_data", 1, 3)%nat);
   ("get_tick", ("get_tick_data", 1, 1)%nat);
   ("place_order", ("place_order", 3, 7)%nat);
   ("close_position", ("close_position", 1, 1)%nat)].

(** [needle] occurs in [hay]. *)
Definition occurs_in (needle hay : string) : Prop :=
  exists m : nat, substring m (String.length needle) hay = needle.

(** [m] returns on every world: no exception leaves it. *)
Definition never_raises {T A} (m : M T A) : Prop :=
  forall w : world T, exists a : A, fst (m w) = Ret a.

(** An event that is no print. *)
Definition no_print (ev : event) : Prop :=
  match ev with
  | Print _ => False
  | _ => True
  end.

(** The reply of the server to a request whose handling raised [e]. *)
Definition error_reply (id : pyval) (e : exn) : pyval :=
  PDict [("id", id); ("success", PBool false); ("error", PStr (str_exn e))].

(** [m] makes native calls and then either prints one envelope, as
    its last act, and returns, or raises without having printed. *)
Definition reports_once {T} (m : M T unit) : Prop :=
  forall w : world T,
    exists calls : list event,
      Forall is_call calls
      /\ ((exists doc : pyval,
              fst (m w) = Ret tt /\ envelope_doc doc
              /\ log (snd (m w)) = (log w ++ calls ++ [Print doc])%list)
          \/ ((exists e : exn, fst (m w) = Raise e)
              /\ log (snd (m w)) = (log w ++ calls)%list)).

(** ** A second sample terminal

    The sample terminal with a symbol list, or an exception, for
    symbols_get, and a peer that may be gone; and the sample runtime
    with one text on which [json.loads] gives up. *)

Module Desk.

Record state : Type := State {
  base : Sample.state;
  symbols : result (option (list SymbolInfo));
  peer_gone : bool
}.

Definition terminal : Terminal state := {|
  mt5_initialize := fun st => (Ret (Sample.available (base st)), st);
  mt5_last_error := fun st => (Ret (PList [PInt (-10003); PStr "IPC initialize failed"]), st);
  mt5_account_info := fun st => (Ret (Sample.account (base st)), st);
  mt5_shutdown := fun st => (Ret tt, st);
  mt5_login := fun _ _ _ st => (Ret false, st);
  mt5_symbols_get := fun st => (symbols st, st);
  mt5_copy_rates_from_pos := fun _ _ _ _ st => (Ret None, st);
  mt5_symbol_info_tick := fun _ st => (Ret None, st);
  mt5_order_send := fun _ st => (Ret (Sample.order_result (base st)), st);
  mt5_positions_get := fun _ st => (Ret (Some (Sample.positions (base st))), st);
  ws_send := fun _ st =>
    if peer_gone st
    then (Raise (Exn ConnectionClosed "no close frame received or sent"), st)
    else (Ret tt, st)
|}.

Definition python : Python := {|
  py_int := Sample.sample_int;
  py_float := Sample.sample_float;
  py_str := Sample.sample_str;
  json_loads := fun s =>
    if String.eqb s "[[[[" then
      Raise (Exn OtherException "maximum recursion depth exceeded")
    else Sample.sample_loads s;
  call_error := fun f _ => f ++ "() got unexpected arguments"
|}.

Definition eurusd : SymbolInfo := {|
  si_visible := true;
  si_name := "EURUSD";
  si_description := "Euro vs US Dollar";
  si_spread := 2;
  si_volume_min := 0.5%float;
  si_volume_max := 500%float
|}.

Definition gbpjpy : SymbolInfo := {|
  si_visible := true;
  si_name := "GBPJPY";
  si_description := "Pound vs Yen";
  si_spread := 5;
  si_volume_min := 0.5%float;
  si_volume_max := 500%float
|}.

Definition usdchf_hidden : SymbolInfo := {|
  si_visible := false;
  si_name := "USDCHF";
  si_description := "US Dollar vs Swiss Franc";
  si_spread := 3;
  si_volume_min := 0.5%float;
  si_volume_max := 500%float
|}.

Definition rejected : OrderSendResult := {|
  osr_retcode := 10006;
  osr_order := 0;
  osr_volume := 0%float;
  osr_price := 0%float;
  osr_comment := "Request rejected"
|}.

(** Three symbols, a peer that listens. *)
Definition listed : state :=
  State Sample.connected (Ret (Some [eurusd; gbpjpy; usdchf_hidden])) false.

(** A terminal that raises on symbols_get. *)
Definition broken : state :=
  State Sample.connected (Raise (Exn OtherException "IPC timeout")) false.

(** A peer that is gone. *)
Definition hung_up : state :=
  State Sample.connected (Ret None) true.

Definition start (st : state) : world state := World st [] ∅.

End Desk.

(** ** A runtime with a recursion limit

    The sample runtime, with the one text on which Python's
    [json.loads] gives up before it has an answer: a thousand opening
    brackets, which raise RecursionError and no JSONDecodeError. *)

Module Deep.

Fixpoint replicate (n : nat) (s : string) : string :=
  match n with
  | O => EmptyString
  | S n' => s ++ replicate n' s
  end.

(** A thousand opening brackets. *)
Definition brackets : string := replicate 1000 "[".

Definition recursion_error : exn :=
  Exn OtherException
    "maximum recursion depth exceeded while decoding a JSON array from a unicode string".

Definition python : Python := {|
  py_int := Sample.sample_int;
  py_float := Sample.sample_float;
  py_str := Sample.sample_str;
  json_loads := fun s =>
    if String.eqb s brackets then Raise recursion_error
    else Sample.sample_loads s;
  call_error := fun f _ => f ++ "() got unexpected arguments"
|}.

End Deep.

(** * Properties *)

(** Unfolds the monad down to pairs of an outcome and a world. *)
Ltac run :=
  unfold bind, ret, raise, lift, try_except, try_finally, call, print, send,
    clients_add, clients_remove in *;
  simpl in *.

Section Operations.
Context {py : Python} {k : MT5Constants} {T : Type} {mt5 : Terminal T}.

Lemma tf_map_get_unknown (timeframe : string) :
  ~ In timeframe known_timeframes ->
  tf_map_get (T := T) (PStr timeframe) = ret TIMEFRAME_M1.
Proof.
  intros Hout. unfold tf_map_get, tf_map, assoc.
  repeat match goal with
         | |- context [String.eqb ?k timeframe] =>
             destruct (String.eqb_spec k timeframe) as [Heq | _];
             [exfalso; apply Hout; rewrite <- Heq; simpl; tauto | ]
         end.
  reflexivity.
Qed.

Lemma tf_map_get_M1 : tf_map_get (T := T) (PStr "M1") = ret TIMEFRAME_M1.
Proof. reflexivity. Qed.

(** C6. A timeframe string outside M1, M5, M15, H1, H4, D1 makes
    [get_market_data] behave exactly as "M1" does, in both files: the
    same outcome, the same native call, the same final state. *)
Theorem unknown_timeframe_falls_back_to_M1 (symbol : pyval) (timeframe : string) :
  ~ In timeframe known_timeframes ->
  (forall (count : Z) (w : world T),
      Bridge.get_market_data symbol (PStr timeframe) count w
      = Bridge.get_market_data symbol (PStr "M1") count w)
  /\ (forall (count : pyval) (w : world T),
         Server.get_market_data symbol (PStr timeframe) count w
         = Server.get_market_data symbol (PStr "M1") count w).
Proof.
  intros Hout.
  split; intros count w;
    unfold Bridge.get_market_data, Server.get_market_data;
    rewrite (tf_map_get_unknown timeframe Hout), tf_map_get_M1; reflexivity.
Qed.

(** C7. When the terminal reports no open position, as [None] or as an
    empty collection, [get_positions] returns
    [{"success": True, "positions": []}] in both files. *)
Theorem get_positions_empty_is_success
  (w : world T) (positions : option (list Position)) (t' : T) :
  mt5_positions_get None (ext w) = (Ret positions, t') ->
  positions = None \/ positions = Some [] ->
  fst (Bridge.get_positions w) = Ret [("success", PBool true); ("positions", PList [])]
  /\ fst (Server.get_positions w) = Ret [("success", PBool true); ("positions", PList [])].
Proof.
  intros Hget Hempty.
  unfold Bridge.get_positions, Server.get_positions. run.
  rewrite Hget. destruct Hempty as [-> | ->]; split; reflexivity.
Qed.

(** The tail of [place_order], from the order-send call on, only adds
    that call to the log. *)
Ltac after_order_send :=
  run;
  match goal with
  | |- context [mt5_order_send ?r ?t] =>
      destruct (mt5_order_send r t) as [[[?|]|?] ?]
  end; simpl;
  try match goal with |- context [negb ?b] => destruct b end;
  reflexivity.

(** C4. In the request that [place_order] sends to the terminal, each of
    "price", "sl" and "tp" is present exactly when its input is strictly
    greater than zero, and then holds that input; an input that is not
    leaves the key out.  The one-shot file compares the numbers it is
    given; the server compares, and stores, their [float()]. *)
Theorem place_order_sentinel
  (symbol order_type volume price sl tp comment : pyval) (w : world T) :
  (is_number price -> is_number sl -> is_number tp ->
   exists request : dict,
     log (snd (Bridge.place_order symbol order_type volume price sl tp comment w))
     = (log w ++ [Mt5 (OrderSend request)])%list
     /\ dict_get request "price" = (if gt0 price then Some price else None)
     /\ dict_get request "sl" = (if gt0 sl then Some sl else None)
     /\ dict_get request "tp" = (if gt0 tp then Some tp else None))
  /\ (forall (vol fprice fsl ftp : float) (ty : Z),
         py_float volume = Ret vol -> py_int order_type = Ret ty ->
         py_float price = Ret fprice -> py_float sl = Ret fsl ->
         py_float tp = Ret ftp ->
         exists request : dict,
           log (snd (Server.place_order symbol order_type volume price sl tp comment w))
           = (log w ++ [Mt5 (OrderSend request)])%list
           /\ dict_get request "price"
              = (if PrimFloat.ltb 0 fprice then Some (PFloat fprice) else None)
           /\ dict_get request "sl"
              = (if PrimFloat.ltb 0 fsl then Some (PFloat fsl) else None)
           /\ dict_get request "tp"
              = (if PrimFloat.ltb 0 ftp then Some (PFloat ftp) else None)).
Proof.
  split.
  - intros Hprice Hsl Htp.
    destruct price; try contradiction; destruct sl; try contradiction;
      destruct tp; try contradiction; clear Hprice Hsl Htp;
      unfold Bridge.place_order, py_gt0, gt0;
      repeat match goal with
             | |- context [Z.ltb 0 ?z] => destruct (Z.ltb 0 z)
             | |- context [PrimFloat.ltb 0 ?f] => destruct (PrimFloat.ltb 0 f)
             end;
      (eexists; split; [after_order_send | repeat split; reflexivity]).
  - intros vol fprice fsl ftp ty Hvol Hty Hprice Hsl Htp.
    unfold Server.place_order, Server.set_if_positive.
    rewrite Hvol, Hty, Hprice, Hsl, Htp. run.
    destruct (PrimFloat.ltb 0 fprice), (PrimFloat.ltb 0 fsl), (PrimFloat.ltb 0 ftp);
      (eexists; split; [after_order_send | repeat split; reflexivity]).
Qed.

Lemma close_request_closes (position : Position) :
  closes position (close_request position).
Proof.
  unfold closes, close_request. cbn [dict_get]. simpl.
  repeat split; intros ->; reflexivity.
Qed.

(** C5. With [positions] the terminal's answer to the lookup of the
    ticket: when it holds a position, [close_position] sends one order,
    for the same symbol, the full volume and the inverse side (SELL for
    BUY, BUY for SELL); when it holds none, [close_position] returns the
    not-found failure and the lookup is its only native call.  The
    server takes any value whose [int()] is the ticket. *)
Theorem close_position_contract
  (n : Z) (w : world T) (positions : option (list Position)) (t' : T) :
  mt5_positions_get (Some n) (ext w) = (Ret positions, t') ->
  close_position_spec n (format (PInt n)) positions w t' (Bridge.close_position n w)
  /\ (forall ticket : pyval,
         py_int ticket = Ret n ->
         close_position_spec n (format ticket) positions w t'
           (Server.close_position ticket w)).
Proof.
  intros Hget. split; [| intros ticket Hticket];
    unfold close_position_spec, Bridge.close_position, Server.close_position;
    rewrite ?Hticket; run; rewrite Hget;
    (destruct positions as [[|position rest]|]; simpl; try reflexivity);
    exists (close_request position);
    (split; [apply close_request_closes |]);
    destruct (mt5_order_send (close_request position) t') as [[[r|]|e] t2]; simpl;
    try destruct (negb _); simpl; rewrite ?Hticket; simpl;
    rewrite <- ?app_assoc; reflexivity.
Qed.

(** C10. For a ticket of an open position, when the order-send call of
    the closing order answers [None], [close_position] still returns a
    failure dict in both files; its text is that of the attribute
    error on [None], taken by the generic handler, and is no
    "Close failed: ..." text.  [place_order], which tests for [None],
    returns "Order send failed". *)
Theorem close_position_null_result
  (n : Z) (w : world T)
  (position : Position) (rest : list Position) (t1 t2 : T) :
  mt5_positions_get (Some n) (ext w) = (Ret (Some (position :: rest)), t1) ->
  mt5_order_send (close_request position) t1 = (Ret None, t2) ->
  fst (Bridge.close_position n w)
  = Ret (failure "'NoneType' object has no attribute 'retcode'")
  /\ (forall ticket : pyval,
         py_int ticket = Ret n ->
         fst (Server.close_position ticket w)
         = Ret (failure "'NoneType' object has no attribute 'retcode'"))
  /\ (forall comment : string,
         "'NoneType' object has no attribute 'retcode'" <> "Close failed: " ++ comment)
  /\ (forall symbol order_type volume price sl tp comment (w0 : world T),
         is_number price -> is_number sl -> is_number tp ->
         (forall request, fst (mt5_order_send request (ext w0)) = Ret None) ->
         fst (Bridge.place_order symbol order_type volume price sl tp comment w0)
         = Ret (failure "Order send failed"))
  /\ (forall symbol order_type volume price sl tp comment (w0 : world T)
        (vol fprice fsl ftp : float) (ty : Z),
         py_float volume = Ret vol -> py_int order_type = Ret ty ->
         py_float price = Ret fprice -> py_float sl = Ret fsl ->
         py_float tp = Ret ftp ->
         (forall request, fst (mt5_order_send request (ext w0)) = Ret None) ->
         fst (Server.place_order symbol order_type volume price sl tp comment w0)
         = Ret (failure "Order send failed")).
Proof.
  intros Hget Hsend.
  assert (Hnull : forall (w0 : world T),
             (forall request, fst (mt5_order_send request (ext w0)) = Ret None) ->
             forall request, exists t0, mt5_order_send request (ext w0) = (Ret None, t0)).
  { intros w0 Hall request. specialize (Hall request).
    destruct (mt5_order_send request (ext w0)) as [r t0]. simpl in Hall.
    subst r. eauto. }
  repeat split.
  - unfold Bridge.close_position. run. rewrite Hget. simpl. rewrite Hsend.
    reflexivity.
  - intros ticket Hticket.
    unfold Server.close_position. rewrite Hticket. run. rewrite Hget. simpl.
    rewrite Hsend. reflexivity.
  - intros comment. discriminate.
  - intros symbol order_type volume price sl tp comment w0 Hprice Hsl Htp Hall.
    destruct price; try contradiction; destruct sl; try contradiction;
      destruct tp; try contradiction; clear Hprice Hsl Htp;
      unfold Bridge.place_order, py_gt0; run;
      repeat match goal with
             | |- context [Z.ltb 0 ?z] => destruct (Z.ltb 0 z)
             | |- context [PrimFloat.ltb 0 ?f] => destruct (PrimFloat.ltb 0 f)
             end; simpl;
      match goal with
      | |- context [mt5_order_send ?r (ext w0)] =>
          destruct (Hnull w0 Hall r) as [t0 ->]
      end; reflexivity.
  - intros symbol order_type volume price sl tp comment w0 vol fprice fsl ftp ty
      Hvol Hty Hprice Hsl Htp Hall.
    unfold Server.place_order, Server.set_if_positive.
    rewrite Hvol, Hty, Hprice, Hsl, Htp. run.
    destruct (PrimFloat.ltb 0 fprice), (PrimFloat.ltb 0 fsl), (PrimFloat.ltb 0 ftp);
      simpl;
      match goal with
      | |- context [mt5_order_send ?r (ext w0)] =>
          destruct (Hnull w0 Hall r) as [t0 ->]
      end; reflexivity.
Qed.

End Operations.

(** ** The envelope of every operation *)

Section Envelopes.
Context {py : Python} {k : MT5Constants} {T : Type} {mt5 : Terminal T}.

Lemma envelope_failure (msg : string) : operation_envelope (failure msg).
Proof. exists false. split; [reflexivity | exists msg; reflexivity]. Qed.

Lemma envelope_success (key : string) (v : pyval) :
  key <> "error" -> key <> "success" ->
  operation_envelope [("success", PBool true); (key, v)].
Proof.
  intros Herror Hsuccess. exists true. split; [reflexivity|].
  unfold dict_get.
  change (String.eqb "success" "error") with false. cbv iota.
  destruct (String.eqb_spec key "error"); [contradiction | reflexivity].
Qed.

Lemma returns_envelope_ret (r : dict) :
  operation_envelope r -> returns_envelope (T := T) (ret r).
Proof. intros Hr w w' r' [= <- _]. exact Hr. Qed.

Lemma returns_envelope_raise (c : exn_class) (msg : string) :
  returns_envelope (T := T) (raise c msg).
Proof. intros w w' r. discriminate. Qed.

Lemma returns_envelope_bind {A} (m : M T A) (f : A -> M T dict) :
  (forall a, returns_envelope (f a)) -> returns_envelope (bind m f).
Proof.
  intros Hf w w' r. unfold bind.
  destruct (m w) as [[a|e] w1]; [apply Hf | discriminate].
Qed.

Lemma returns_envelope_try_except (m : M T dict) (h : exn -> M T dict) :
  returns_envelope m -> (forall e, returns_envelope (h e)) ->
  returns_envelope (try_except m h).
Proof.
  intros Hm Hh w w' r. unfold try_except.
  destruct (m w) as [[a|e] w1] eqn:Hrun.
  - intros [= <- <-]. exact (Hm _ _ _ Hrun).
  - apply Hh.
Qed.

(** Walks through an operation: binds, handlers and case splits, down
    to the dicts it can return. *)
Ltac envelope :=
  repeat first
    [ apply returns_envelope_try_except
    | apply returns_envelope_bind
    | apply returns_envelope_raise
    | apply returns_envelope_ret
    | apply envelope_failure
    | apply envelope_success; discriminate
    | progress intros
    | match goal with
      | |- returns_envelope (match ?x with _ => _ end) => destruct x
      | |- returns_envelope (let _ := _ in _) => cbv zeta
      end ].

Lemma connect_mt5_envelope : returns_envelope Server.connect_mt5.
Proof. unfold Server.connect_mt5. envelope. Qed.

Lemma connect_with_credentials_envelope (login password server : pyval) :
  returns_envelope (Server.connect_with_credentials login password server).
Proof. unfold Server.connect_with_credentials. envelope. Qed.

Lemma get_symbols_envelope : returns_envelope Server.get_symbols.
Proof. unfold Server.get_symbols. envelope. Qed.

Lemma get_market_data_envelope (symbol timeframe count : pyval) :
  returns_envelope (Server.get_market_data symbol timeframe count).
Proof. unfold Server.get_market_data. envelope. Qed.

Lemma get_tick_data_envelope (symbol : pyval) :
  returns_envelope (Server.get_tick_data symbol).
Proof. unfold Server.get_tick_data. envelope. Qed.

Lemma place_order_envelope (symbol order_type volume price sl tp comment : pyval) :
  returns_envelope (Server.place_order symbol order_type volume price sl tp comment).
Proof. unfold Server.place_order. envelope. Qed.

Lemma get_positions_envelope : returns_envelope Server.get_positions.
Proof. unfold Server.get_positions. envelope. Qed.

Lemma close_position_envelope (ticket : pyval) :
  returns_envelope (Server.close_position ticket).
Proof. unfold Server.close_position. envelope. Qed.

Lemma shutdown_mt5_envelope : returns_envelope Server.shutdown_mt5.
Proof. unfold Server.shutdown_mt5. envelope. Qed.

Lemma dispatch_envelope (command args : pyval) :
  returns_envelope (Server.dispatch command args).
Proof.
  unfold Server.dispatch.
  repeat match goal with
         | |- returns_envelope (if ?c then _ else _) => destruct c
         end;
    repeat first
      [ apply connect_mt5_envelope
      | apply connect_with_credentials_envelope
      | apply get_symbols_envelope
      | apply get_market_data_envelope
      | apply get_tick_data_envelope
      | apply place_order_envelope
      | apply get_positions_envelope
      | apply close_position_envelope
      | apply shutdown_mt5_envelope
      | apply returns_envelope_bind; intros
      | apply returns_envelope_raise
      | apply returns_envelope_ret; apply envelope_failure
      | match goal with
        | |- returns_envelope (match ?x with _ => _ end) => destruct x
        end ].
Qed.

End Envelopes.

(** ** The two front-ends *)

Section FrontEnds.
Context {py : Python} {k : MT5Constants} {T : Type} {mt5 : Terminal T}.





(** The shape of [main] once the implicit connect has succeeded. *)
Lemma main_connected
  (prog command : string) (rest : list string) (w w1 : world T)
  (connect_result : dict) :
  Bridge.connect_mt5 w = (Ret connect_result, w1) ->
  dict_get connect_result "success" = Some (PBool true) ->
  Bridge.main (prog :: command :: rest) w
  = try_finally (Bridge.dispatch (prog :: command :: rest) command connect_result)
      (call Shutdown mt5_shutdown) w1.
Proof.
  intros Hconnect Hsuccess. unfold Bridge.main, bind.
  rewrite Hconnect, Hsuccess. reflexivity.
Qed.

Lemma log_try_finally_shutdown {A} (m : M T A) (w : world T) :
  log (snd (try_finally m (call Shutdown mt5_shutdown) w))
  = (log (snd (m w)) ++ [Mt5 Shutdown])%list.
Proof.
  unfold try_finally, call. destruct (m w) as [r w1]. simpl.
  destruct (mt5_shutdown (ext w1)) as [[[]|e] t2]; reflexivity.
Qed.

(** C1, as the code has it.  The answer of [process_command] to a JSON
    object follows what the dispatched call did, and is one of two
    shapes, never both and never neither.  When the call returns a
    dict, also one that reports a failure, the answer is
    [{id, success, result}]: [result] is that dict, an operation
    envelope, and [success] repeats its flag, so that the message of a
    failed operation is inside [result] and there is no top-level
    [error].  When the call raises [e], the answer is
    [{id, success: false, error: str(e)}].  The world is the one that
    the call leaves. *)
Theorem process_command_envelope (d : dict) (w : world T) :
  exists (resp : dict) (w' : world T),
    Server.process_command (PDict d) w = (Ret (PDict resp), w')
    /\ ((exists (r : dict) (b : bool),
            Server.dispatch (dict_get_default d "command" PNone)
              (dict_get_default d "args" (PList [])) w
            = (Ret r, w')
            /\ resp = [("id", dict_get_default d "id" PNone);
                       ("success", PBool b);
                       ("result", PDict r)]
            /\ operation_envelope r
            /\ dict_get r "success" = Some (PBool b))
        \/ (exists e : exn,
               Server.dispatch (dict_get_default d "command" PNone)
                 (dict_get_default d "args" (PList [])) w
               = (Raise e, w')
               /\ resp = [("id", dict_get_default d "id" PNone);
                          ("success", PBool false);
                          ("error", PStr (str_exn e))])).
Proof.
  unfold Server.process_command, Server.py_get. run.
  destruct (Server.dispatch (dict_get_default d "command" PNone)
              (dict_get_default d "args" (PList [])) w) as [[r|e] w1] eqn:Hrun;
    simpl; do 2 eexists; (split; [reflexivity |]).
  - left. destruct (dispatch_envelope _ _ _ _ _ Hrun) as [b [Hb Herr]].
    exists r, b. unfold dict_get_default. rewrite Hb.
    repeat split; trivial. exists b. split; assumption.
  - right. exists e. split; reflexivity.
Qed.

(** C2, as the code has it.  Without a command, [main] prints the
    failure and makes no native call at all.  Once the implicit connect
    has succeeded, whatever the dispatched operation does, and also
    when it raises, the last thing [main] does is the Shutdown call. *)
Theorem shutdown_after_dispatch :
  (forall (argv : list string) (w : world T),
      (length argv < 2)%nat ->
      Bridge.main argv w
      = (Ret tt,
         World (ext w) (log w ++ [Print (PDict (failure "No command provided"))])
           (clients w)))
  /\ (forall (prog command : string) (rest : list string) (w w1 : world T)
        (connect_result : dict),
         Bridge.connect_mt5 w = (Ret connect_result, w1) ->
         dict_get connect_result "success" = Some (PBool true) ->
         log (snd (Bridge.main (prog :: command :: rest) w))
         = (log (snd (Bridge.dispatch (prog :: command :: rest) command
                        connect_result w1))
              ++ [Mt5 Shutdown])%list).
Proof.
  split.
  - intros [|prog [|command rest]] w Hlen; simpl in Hlen; try lia; reflexivity.
  - intros prog command rest w w1 connect_result Hconnect Hsuccess.
    rewrite (main_connected _ _ _ _ _ _ Hconnect Hsuccess).
    apply log_try_finally_shutdown.
Qed.

(** C3, at the failing input.  [close_position] without a ticket on a
    connected terminal: [sys.argv[2]] raises IndexError inside the
    [try], the [finally] clause shuts the terminal down, and the
    exception leaves [main]: nothing is printed. *)
Theorem main_missing_argument_escapes
  (prog : string) (w w1 : world T) (connect_result : dict) (t2 : T) :
  Bridge.connect_mt5 w = (Ret connect_result, w1) ->
  dict_get connect_result "success" = Some (PBool true) ->
  mt5_shutdown (ext w1) = (Ret tt, t2) ->
  Bridge.main [prog; "close_position"] w
  = (Raise (Exn IndexError "list index out of range"),
     World t2 (log w1 ++ [Mt5 Shutdown]) (clients w1)).
Proof.
  intros Hconnect Hsuccess Hshutdown.
  rewrite (main_connected _ _ _ _ _ _ Hconnect Hsuccess).
  unfold try_finally, Bridge.dispatch. run. rewrite Hshutdown. reflexivity.
Qed.



End FrontEnds.

(** ** Runs on the sample terminal *)

Section Runs.
#[local] Existing Instance Sample.python.
#[local] Existing Instance Sample.constants.
#[local] Existing Instance Sample.terminal.

Import Sample.

(** C1, as the specification words it, fails: closing a ticket that the
    terminal does not know is answered with [success: false] and the
    message inside [result]; the envelope has no top-level [error]. *)
Lemma position_not_found_envelope :
  exists (resp : dict) (w' : world state),
    Server.process_command
      (PDict [("id", PInt 1); ("command", PStr "close_position");
              ("args", PList [PInt 99])])
      (start flat)
    = (Ret (PDict resp), w')
    /\ resp = [("id", PInt 1);
               ("success", PBool false);
               ("result", PDict [("success", PBool false);
                                 ("error", PStr "Position 99 not found")])]
    /\ ~ envelope_as_specified resp.
Proof.
  do 2 eexists. split; [vm_compute; reflexivity |]. split; [reflexivity |].
  intros [[Hsuccess _] | [_ [[msg [Herror _]] _]]]; discriminate.
Qed.

(** C2, as the specification words it, fails: without a command, and
    when the terminal cannot be initialised, [main] returns without
    the Shutdown call. *)
Lemma no_shutdown_on_early_return :
  ~ In (Mt5 Shutdown) (log (snd (Bridge.main ["mt5_bridge.py"] (start connected))))
  /\ ~ In (Mt5 Shutdown)
         (log (snd (Bridge.main ["mt5_bridge.py"; "get_positions"] (start unavailable)))).
Proof.
  split; vm_compute; intuition discriminate.
Qed.


(** A message that decodes to a JSON value that is no object: the
    attribute error of [data.get] is raised before the [try] of
    [process_command], and again inside the handler that catches it;
    nothing is sent and the exception leaves [handle_client]. *)
Lemma non_object_message_ends_handler :
  Server.handle_client 1 ["[]"; "{}"] (Ret tt) (start connected)
  = (Raise (Exn AttributeError "'list' object has no attribute 'get'"),
     World connected [] ∅).
Proof. vm_compute. reflexivity. Qed.

(** The characters of a string with a two-byte character in it. *)
Lemma characters_of_cafe :
  Server.characters "tick" = ["t"; "i"; "c"; "k"]
  /\ Server.characters "café" = ["c"; "a"; "f"; "é"].
Proof. split; reflexivity. Qed.

Lemma x1_unknown : ~ In "X1" known_timeframes.
Proof. simpl. intuition discriminate. Defined.


Lemma unknown_timeframe_witness :
  ~ In "X1" known_timeframes
  /\ Bridge.get_market_data (PStr "EURUSD") (PStr "X1") 100 (start connected)
     = Bridge.get_market_data (PStr "EURUSD") (PStr "M1") 100 (start connected)
  /\ Server.get_market_data (PStr "EURUSD") (PStr "X1") (PInt 100) (start connected)
     = Server.get_market_data (PStr "EURUSD") (PStr "M1") (PInt 100) (start connected).
Proof.
  split; [exact x1_unknown |].
  destruct (unknown_timeframe_falls_back_to_M1 (PStr "EURUSD") "X1" x1_unknown)
    as [Hbridge Hserver].
  split; [apply Hbridge | apply Hserver].
Defined.

Lemma get_positions_empty_witness :
  fst (Bridge.get_positions (start flat))
  = Ret [("success", PBool true); ("positions", PList [])]
  /\ fst (Server.get_positions (start flat))
     = Ret [("success", PBool true); ("positions", PList [])].
Proof.
  apply (get_positions_empty_is_success (start flat) (Some []) flat).
  - reflexivity.
  - right. reflexivity.
Defined.

Lemma place_order_sentinel_witness :
  (exists request : dict,
      log (snd (Bridge.place_order (PStr "EURUSD") (PInt 0) (PFloat 0.5)
                  (PInt 0) (PFloat 1.5) (PFloat (-1)) (PStr "") (start connected)))
      = [Mt5 (OrderSend request)]
      /\ dict_get request "price" = None
      /\ dict_get request "sl" = Some (PFloat 1.5)
      /\ dict_get request "tp" = None)
  /\ (exists request : dict,
         log (snd (Server.place_order (PStr "EURUSD") (PInt 0) (PFloat 0.5)
                     (PInt 0) (PFloat 1.5) (PFloat (-1)) (PStr "") (start connected)))
         = [Mt5 (OrderSend request)]
         /\ dict_get request "price" = None
         /\ dict_get request "sl" = Some (PFloat 1.5)
         /\ dict_get request "tp" = None).
Proof.
  destruct (place_order_sentinel (PStr "EURUSD") (PInt 0) (PFloat 0.5)
              (PInt 0) (PFloat 1.5) (PFloat (-1)) (PStr "") (start connected))
    as [Hbridge Hserver].
  split.
  - exact (Hbridge I I I).
  - exact (Hserver 0.5%float 0%float 1.5%float (-1)%float 0
             eq_refl eq_refl eq_refl eq_refl eq_refl).
Defined.

Lemma close_position_contract_witness :
  (exists request : dict,
      closes buy_position request
      /\ log (snd (Bridge.close_position 7 (start connected)))
         = [Mt5 (PositionsGet (Some 7)); Mt5 (OrderSend request)])
  /\ (exists request : dict,
         closes buy_position request
         /\ log (snd (Server.close_position (PStr "7") (start connected)))
            = [Mt5 (PositionsGet (Some 7)); Mt5 (OrderSend request)]).
Proof.
  assert (Hget : mt5_positions_get (Some 7) (ext (start connected))
                 = (Ret (Some [buy_position]), connected)) by (vm_compute; reflexivity).
  destruct (close_position_contract 7 (start connected) (Some [buy_position])
              connected Hget) as [Hbridge Hserver].
  split; [exact Hbridge |].
  apply (Hserver (PStr "7")). vm_compute; reflexivity.
Defined.

Lemma close_position_null_result_witness :
  fst (Bridge.close_position 7 (start mute))
  = Ret (failure "'NoneType' object has no attribute 'retcode'")
  /\ fst (Server.close_position (PStr "7") (start mute))
     = Ret (failure "'NoneType' object has no attribute 'retcode'").
Proof.
  assert (Hget : mt5_positions_get (Some 7) (ext (start mute))
                 = (Ret (Some [buy_position]), mute)) by (vm_compute; reflexivity).
  assert (Hsend : mt5_order_send (close_request buy_position) mute = (Ret None, mute))
    by (vm_compute; reflexivity).
  destruct (close_position_null_result 7 (start mute)
              buy_position [] mute mute Hget Hsend)
    as [Hbridge [Hserver _]].
  split; [exact Hbridge |].
  apply (Hserver (PStr "7")). vm_compute; reflexivity.
Defined.

Lemma shutdown_after_dispatch_witness :
  Bridge.main ["mt5_bridge.py"] (start connected)
  = (Ret tt,
     World connected [Print (PDict (failure "No command provided"))] ∅)
  /\ log (snd (Bridge.main ["mt5_bridge.py"; "close_position"] (start connected)))
     = (log (snd (Bridge.dispatch ["mt5_bridge.py"; "close_position"] "close_position"
                    [("success", PBool true); ("account", PDict (account_dict demo_account))]
                    (World connected [Mt5 Initialize; Mt5 GetAccountInfo] ∅)))
          ++ [Mt5 Shutdown])%list.
Proof.
  destruct (shutdown_after_dispatch (T := state)) as [Hnone Hconnected].
  split.
  - apply (Hnone ["mt5_bridge.py"] (start connected)). simpl. lia.
  - apply (Hconnected "mt5_bridge.py" "close_position" [] (start connected));
      reflexivity.
Defined.

Lemma main_missing_argument_witness :
  Bridge.main ["mt5_bridge.py"; "close_position"] (start connected)
  = (Raise (Exn IndexError "list index out of range"),
     World connected [Mt5 Initialize; Mt5 GetAccountInfo; Mt5 Shutdown] ∅).
Proof.
  apply (main_missing_argument_escapes "mt5_bridge.py" (start connected)
           (World connected [Mt5 Initialize; Mt5 GetAccountInfo] ∅)
           [("success", PBool true); ("account", PDict (account_dict demo_account))]
           connected); vm_compute; reflexivity.
Defined.



End Runs.

(** ** What the operations add to the world *)

Section Frames.
Context {py : Python} {k : MT5Constants} {T : Type} {mt5 : Terminal T}.

Lemma adds_only_ret {A} (P : event -> Prop) (a : A) :
  adds_only (T := T) P (ret a).
Proof.
  intros w. split; [reflexivity |].
  exists []. split; [symmetry; apply app_nil_r | constructor].
Qed.

Lemma adds_only_lift {A} (P : event -> Prop) (r : result A) :
  adds_only (T := T) P (lift r).
Proof.
  intros w. split; [reflexivity |].
  exists []. split; [symmetry; apply app_nil_r | constructor].
Qed.

Lemma adds_only_raise {A} (P : event -> Prop) (c : exn_class) (msg : string) :
  adds_only (T := T) (A := A) P (raise c msg).
Proof.
  intros w. split; [reflexivity |].
  exists []. split; [symmetry; apply app_nil_r | constructor].
Qed.

Lemma adds_only_call {A} (P : event -> Prop) (c : mt5_call)
  (f : T -> result A * T) :
  P (Mt5 c) -> adds_only P (call c f).
Proof.
  intros Hc w. unfold call. destruct (f (ext w)) as [r t']. simpl.
  split; [reflexivity |]. exists [Mt5 c]. split; [reflexivity |].
  constructor; [exact Hc | constructor].
Qed.

Lemma adds_only_print (P : event -> Prop) (v : pyval) :
  P (Print v) -> adds_only (T := T) P (print v).
Proof.
  intros Hv w. split; [reflexivity |]. exists [Print v].
  split; [reflexivity |]. constructor; [exact Hv | constructor].
Qed.

Lemma adds_only_send (P : event -> Prop) (v : pyval) :
  P (Send v) -> adds_only P (send v).
Proof.
  intros Hv w. unfold send. destruct (ws_send v (ext w)) as [r t']. simpl.
  split; [reflexivity |]. exists [Send v].
  split; [reflexivity |]. constructor; [exact Hv | constructor].
Qed.

Lemma adds_only_bind {A B} (P : event -> Prop) (m : M T A) (f : A -> M T B) :
  adds_only P m -> (forall a, adds_only P (f a)) -> adds_only P (bind m f).
Proof.
  intros Hm Hf w. unfold bind.
  destruct (Hm w) as [Hclients [evs [Hlog Hevs]]].
  destruct (m w) as [[a|e] w1]; simpl in *.
  - destruct (Hf a w1) as [Hclients' [evs' [Hlog' Hevs']]].
    split; [congruence |]. exists (evs ++ evs')%list.
    split; [rewrite Hlog', Hlog, app_assoc; reflexivity |].
    apply Forall_app; split; assumption.
  - split; [assumption |]. exists evs. split; assumption.
Qed.

Lemma adds_only_try_except {A} (P : event -> Prop) (m : M T A) (h : exn -> M T A) :
  adds_only P m -> (forall e, adds_only P (h e)) -> adds_only P (try_except m h).
Proof.
  intros Hm Hh w. unfold try_except.
  destruct (Hm w) as [Hclients [evs [Hlog Hevs]]].
  destruct (m w) as [[a|e] w1]; simpl in *.
  - split; [assumption |]. exists evs. split; assumption.
  - destruct (Hh e w1) as [Hclients' [evs' [Hlog' Hevs']]].
    split; [congruence |]. exists (evs ++ evs')%list.
    split; [rewrite Hlog', Hlog, app_assoc; reflexivity |].
    apply Forall_app; split; assumption.
Qed.

Lemma adds_only_try_finally {A} (P : event -> Prop) (m : M T A) (f : M T unit) :
  adds_only P m -> adds_only P f -> adds_only P (try_finally m f).
Proof.
  intros Hm Hf w. unfold try_finally.
  destruct (Hm w) as [Hclients [evs [Hlog Hevs]]].
  destruct (m w) as [r w1]; simpl in *.
  destruct (Hf w1) as [Hclients' [evs' [Hlog' Hevs']]].
  assert (Hboth : clients (snd (f w1)) = clients w
                  /\ exists evs0, log (snd (f w1)) = (log w ++ evs0)%list
                                  /\ Forall P evs0).
  { split; [congruence |]. exists (evs ++ evs')%list.
    split; [rewrite Hlog', Hlog, app_assoc; reflexivity |].
    apply Forall_app; split; assumption. }
  destruct (f w1) as [[[]|e] w2]; exact Hboth.
Qed.

Lemma adds_only_weaken {A} (P Q : event -> Prop) (m : M T A) :
  (forall ev, P ev -> Q ev) -> adds_only P m -> adds_only Q m.
Proof.
  intros HPQ Hm w. destruct (Hm w) as [Hclients [evs [Hlog Hevs]]].
  split; [assumption |]. exists evs. split; [assumption |].
  eapply Forall_impl; eassumption.
Qed.

(** Walks through a computation that only makes native calls. *)
Ltac only_calls :=
  repeat first
    [ apply adds_only_try_except
    | apply adds_only_bind
    | apply adds_only_raise
    | apply adds_only_ret
    | apply adds_only_lift
    | apply adds_only_call; exact I
    | progress intros
    | match goal with
      | |- adds_only _ (match ?x with _ => _ end) => destruct x
      | |- adds_only _ (let _ := _ in _) => cbv zeta
      end ].

Lemma bridge_connect_mt5_calls : adds_only is_call Bridge.connect_mt5.
Proof. unfold Bridge.connect_mt5. only_calls. Qed.

Lemma bridge_connect_with_credentials_calls (login password server : pyval) :
  adds_only is_call (Bridge.connect_with_credentials login password server).
Proof. unfold Bridge.connect_with_credentials. only_calls. Qed.

Lemma bridge_get_symbols_calls : adds_only is_call Bridge.get_symbols.
Proof. unfold Bridge.get_symbols. only_calls. Qed.

Lemma bridge_get_market_data_calls (symbol timeframe : pyval) (count : Z) :
  adds_only is_call (Bridge.get_market_data symbol timeframe count).
Proof. unfold Bridge.get_market_data, tf_map_get. only_calls. Qed.

Lemma bridge_get_tick_data_calls (symbol : pyval) :
  adds_only is_call (Bridge.get_tick_data symbol).
Proof. unfold Bridge.get_tick_data. only_calls. Qed.

Lemma bridge_place_order_calls
  (symbol order_type volume price sl tp comment : pyval) :
  adds_only is_call (Bridge.place_order symbol order_type volume price sl tp comment).
Proof. unfold Bridge.place_order, py_gt0. only_calls. Qed.

Lemma bridge_get_positions_calls : adds_only is_call Bridge.get_positions.
Proof. unfold Bridge.get_positions. only_calls. Qed.

Lemma bridge_close_position_calls (ticket : Z) :
  adds_only is_call (Bridge.close_position ticket).
Proof. unfold Bridge.close_position. only_calls. Qed.

Lemma server_connect_mt5_calls : adds_only is_call Server.connect_mt5.
Proof. unfold Server.connect_mt5. only_calls. Qed.

Lemma server_connect_with_credentials_calls (login password server : pyval) :
  adds_only is_call (Server.connect_with_credentials login password server).
Proof. unfold Server.connect_with_credentials. only_calls. Qed.

Lemma server_get_symbols_calls : adds_only is_call Server.get_symbols.
Proof. unfold Server.get_symbols. only_calls. Qed.

Lemma server_get_market_data_calls (symbol timeframe count : pyval) :
  adds_only is_call (Server.get_market_data symbol timeframe count).
Proof. unfold Server.get_market_data, tf_map_get. only_calls. Qed.

Lemma server_get_tick_data_calls (symbol : pyval) :
  adds_only is_call (Server.get_tick_data symbol).
Proof. unfold Server.get_tick_data. only_calls. Qed.

Lemma server_place_order_calls
  (symbol order_type volume price sl tp comment : pyval) :
  adds_only is_call (Server.place_order symbol order_type volume price sl tp comment).
Proof. unfold Server.place_order, Server.set_if_positive. only_calls. Qed.

Lemma server_get_positions_calls : adds_only is_call Server.get_positions.
Proof. unfold Server.get_positions. only_calls. Qed.

Lemma server_close_position_calls (ticket : pyval) :
  adds_only is_call (Server.close_position ticket).
Proof. unfold Server.close_position. only_calls. Qed.

Lemma server_shutdown_mt5_calls : adds_only is_call Server.shutdown_mt5.
Proof. unfold Server.shutdown_mt5. only_calls. Qed.

Lemma server_dispatch_calls (command args : pyval) :
  adds_only is_call (Server.dispatch command args).
Proof.
  unfold Server.dispatch, Server.unpack.
  repeat match goal with
         | |- adds_only _ (if ?c then _ else _) => destruct c
         end;
    repeat first
      [ apply server_connect_mt5_calls
      | apply server_connect_with_credentials_calls
      | apply server_get_symbols_calls
      | apply server_get_market_data_calls
      | apply server_get_tick_data_calls
      | apply server_place_order_calls
      | apply server_get_positions_calls
      | apply server_close_position_calls
      | apply server_shutdown_mt5_calls
      | apply adds_only_bind; intros
      | apply adds_only_raise
      | apply adds_only_ret
      | match goal with
        | |- adds_only _ (match ?x with _ => _ end) => destruct x
        end ].
Qed.

Lemma process_command_adds (data : pyval) :
  adds_only is_call (Server.process_command data).
Proof.
  unfold Server.process_command, Server.py_get.
  repeat first
    [ apply adds_only_try_except
    | apply adds_only_bind
    | apply adds_only_raise
    | apply adds_only_ret
    | apply server_dispatch_calls
    | progress intros
    | match goal with
      | |- adds_only _ (match ?x with _ => _ end) => destruct x
      end ].
Qed.

(** X1. The command layer of the server only talks to the terminal:
    whatever the message holds, and whether it returns or raises,
    [process_command] adds nothing but native calls to the log, so it
    neither prints nor sends, and it leaves the set of connected
    clients as it is. *)
Theorem process_command_only_calls_terminal (data : pyval) (w : world T) :
  clients (snd (Server.process_command data w)) = clients w
  /\ exists evs : list event,
      log (snd (Server.process_command data w)) = (log w ++ evs)%list
      /\ Forall is_call evs.
Proof. apply process_command_adds. Qed.

End Frames.

(** ** The operations of the adapter *)

Section Adapter.
Context {py : Python} {k : MT5Constants} {T : Type} {mt5 : Terminal T}.

Lemma never_raises_guard (m : M T dict) :
  never_raises (try_except m (fun e => ret (failure (str_exn e)))).
Proof.
  intros w. unfold try_except. destruct (m w) as [[r|e] w1]; eexists; reflexivity.
Qed.

(** X2. The five operations that wrap their body in [try]/[except]
    return a dict on every input and whatever the terminal does, in
    both files: an exception of the terminal or of a conversion becomes
    a failure dict and never leaves them. *)
Theorem guarded_operations_never_raise :
  (forall symbol timeframe count,
      never_raises (T := T) (Bridge.get_market_data symbol timeframe count))
  /\ (forall symbol, never_raises (T := T) (Bridge.get_tick_data symbol))
  /\ (forall symbol order_type volume price sl tp comment,
         never_raises (T := T)
           (Bridge.place_order symbol order_type volume price sl tp comment))
  /\ never_raises (T := T) Bridge.get_positions
  /\ (forall ticket, never_raises (T := T) (Bridge.close_position ticket))
  /\ (forall symbol timeframe count,
         never_raises (T := T) (Server.get_market_data symbol timeframe count))
  /\ (forall symbol, never_raises (T := T) (Server.get_tick_data symbol))
  /\ (forall symbol order_type volume price sl tp comment,
         never_raises (T := T)
           (Server.place_order symbol order_type volume price sl tp comment))
  /\ never_raises (T := T) Server.get_positions
  /\ (forall ticket, never_raises (T := T) (Server.close_position ticket)).
Proof.
  repeat split; intros; apply never_raises_guard.
Qed.

(** X3. [get_symbols] has no [try] of its own.  When the terminal's
    symbols_get raises, the exception leaves the one-shot operation as
    it is; in the server the same exception is caught by
    [process_command] and becomes [{id, success: false, error}]. *)
Theorem get_symbols_exception (w : world T) (e : exn) (t' : T) :
  mt5_symbols_get (ext w) = (Raise e, t') ->
  Bridge.get_symbols w
  = (Raise e, World t' (log w ++ [Mt5 SymbolsGet]) (clients w))
  /\ (forall d : dict,
         dict_get d "command" = Some (PStr "get_symbols") ->
         Server.process_command (PDict d) w
         = (Ret (PDict [("id", dict_get_default d "id" PNone);
                        ("success", PBool false);
                        ("error", PStr (str_exn e))]),
            World t' (log w ++ [Mt5 SymbolsGet]) (clients w))).
Proof.
  intros Hraise. split.
  - unfold Bridge.get_symbols. run. rewrite Hraise. reflexivity.
  - intros d Hcommand.
    unfold Server.process_command, Server.py_get, dict_get_default at 2.
    rewrite Hcommand. unfold Server.dispatch, py_eq_str.
    change (String.eqb "get_symbols" "test_connection") with false.
    change (String.eqb "get_symbols" "connect_with_credentials") with false.
    change (String.eqb "get_symbols" "get_symbols") with true.
    cbv iota. unfold Server.get_symbols. run. rewrite Hraise. reflexivity.
Qed.

(** X4. What [connect_mt5] can return, in both files: the account
    snapshot after initialize and account_info; the failure
    "Failed to get account info" after the same two calls; or the
    failure that quotes last_error, after initialize and last_error
    alone: account_info is not asked when initialize fails. *)
Theorem connect_mt5_outcomes (w w1 : world T) (r : dict) :
  Bridge.connect_mt5 w = (Ret r, w1) \/ Server.connect_mt5 w = (Ret r, w1) ->
  (exists a : AccountInfo,
      r = [("success", PBool true); ("account", PDict (account_dict a))]
      /\ log w1 = (log w ++ [Mt5 Initialize; Mt5 GetAccountInfo])%list)
  \/ (r = [("success", PBool false); ("error", PStr "Failed to get account info")]
      /\ log w1 = (log w ++ [Mt5 Initialize; Mt5 GetAccountInfo])%list)
  \/ (exists v : pyval,
         r = [("success", PBool false);
              ("error", PStr ("initialize() failed, error code = " ++ format v))]
         /\ log w1 = (log w ++ [Mt5 Initialize; Mt5 LastError])%list).
Proof.
  intros Hrun.
  assert (Hone : Bridge.connect_mt5 w = (Ret r, w1)) by (destruct Hrun; assumption).
  clear Hrun. revert Hone. unfold Bridge.connect_mt5. run.
  destruct (mt5_initialize (ext w)) as [[[|]|e] t1]; simpl.
  - destruct (mt5_account_info t1) as [[[a|]|e] t2]; simpl;
      intros [= <- <-]; simpl; rewrite <- app_assoc.
    + left. exists a. split; reflexivity.
    + right. left. split; reflexivity.
  - destruct (mt5_last_error t1) as [[v|e] t2]; simpl;
      intros [= <- <-]; simpl; rewrite <- app_assoc.
    right. right. exists v. split; reflexivity.
  - discriminate.
Qed.

(** X5. What [connect_with_credentials] can return, in both files.
    Every run starts with Shutdown and then initialize.  A success
    follows login and account_info.  A failure after the login was
    tried, be it a rejected login or a missing account info, ends with
    a second Shutdown, so that no session is left open.  A failed
    initialize is reported without any login. *)
Theorem connect_with_credentials_outcomes
  (login password server : pyval) (w w1 : world T) (r : dict) :
  Bridge.connect_with_credentials login password server w = (Ret r, w1)
  \/ Server.connect_with_credentials login password server w = (Ret r, w1) ->
  (exists (a : AccountInfo) (n : Z),
      py_int login = Ret n
      /\ r = [("success", PBool true); ("account", PDict (account_dict a))]
      /\ log w1 = (log w ++ [Mt5 Shutdown; Mt5 Initialize;
                             Mt5 (Login n password server);
                             Mt5 GetAccountInfo])%list)
  \/ (exists n : Z,
         py_int login = Ret n
         /\ r = [("success", PBool false);
                 ("error", PStr "Failed to get account info after login")]
         /\ log w1 = (log w ++ [Mt5 Shutdown; Mt5 Initialize;
                                Mt5 (Login n password server);
                                Mt5 GetAccountInfo; Mt5 Shutdown])%list)
  \/ (exists (n : Z) (v : pyval),
         py_int login = Ret n
         /\ r = [("success", PBool false);
                 ("error", PStr ("Login failed, error code = " ++ format v))]
         /\ log w1 = (log w ++ [Mt5 Shutdown; Mt5 Initialize;
                                Mt5 (Login n password server);
                                Mt5 LastError; Mt5 Shutdown])%list)
  \/ (exists v : pyval,
         r = [("success", PBool false);
              ("error", PStr ("initialize() failed, error code = " ++ format v))]
         /\ log w1 = (log w ++ [Mt5 Shutdown; Mt5 Initialize; Mt5 LastError])%list).
Proof.
  intros Hrun.
  assert (Hone : Bridge.connect_with_credentials login password server w = (Ret r, w1))
    by (destruct Hrun; assumption).
  clear Hrun. revert Hone. unfold Bridge.connect_with_credentials. run.
  destruct (mt5_shutdown (ext w)) as [[[]|e] t0]; simpl; [| discriminate].
  destruct (mt5_initialize t0) as [[[|]|e] t1]; simpl; [| | discriminate].
  - destruct (py_int login) as [n|e] eqn:Hlogin; simpl; [| discriminate].
    destruct (mt5_login n password server t1) as [[[|]|e] t2]; simpl;
      [| | discriminate].
    + destruct (mt5_account_info t2) as [[[a|]|e] t3]; simpl; [| | discriminate].
      * intros [= <- <-]. simpl. rewrite <- !app_assoc.
        left. exists a, n. repeat split; reflexivity.
      * destruct (mt5_shutdown t3) as [[[]|e] t4]; simpl; [| discriminate].
        intros [= <- <-]. simpl. rewrite <- !app_assoc.
        right. left. exists n. repeat split; reflexivity.
    + destruct (mt5_last_error t2) as [[v|e] t3]; simpl; [| discriminate].
      destruct (mt5_shutdown t3) as [[[]|e] t4]; simpl; [| discriminate].
      intros [= <- <-]. simpl. rewrite <- !app_assoc.
      right. right. left. exists n, v. repeat split; reflexivity.
  - destruct (mt5_last_error t1) as [[v|e] t2]; simpl; [| discriminate].
    intros [= <- <-]. simpl. rewrite <- !app_assoc.
    right. right. right. exists v. split; reflexivity.
Qed.

(** X6. A login that [int()] rejects: the conversion is made after the
    terminal has been shut down and initialised again, so its
    exception leaves [connect_with_credentials] with the terminal
    initialised, and the login call is never made.  The server turns
    the exception into [{id, success: false, error}]. *)
Theorem connect_with_credentials_bad_login
  (login password server : pyval) (w : world T) (e : exn) (t0 t1 : T) :
  py_int login = Raise e ->
  mt5_shutdown (ext w) = (Ret tt, t0) ->
  mt5_initialize t0 = (Ret true, t1) ->
  Bridge.connect_with_credentials login password server w
  = (Raise e, World t1 (log w ++ [Mt5 Shutdown; Mt5 Initialize]) (clients w))
  /\ (forall d : dict,
         dict_get d "command" = Some (PStr "connect_with_credentials") ->
         dict_get d "args" = Some (PList [login; password; server]) ->
         Server.process_command (PDict d) w
         = (Ret (PDict [("id", dict_get_default d "id" PNone);
                        ("success", PBool false);
                        ("error", PStr (str_exn e))]),
            World t1 (log w ++ [Mt5 Shutdown; Mt5 Initialize]) (clients w))).
Proof.
  intros Hlogin Hshutdown Hinit. split.
  - unfold Bridge.connect_with_credentials. run.
    rewrite Hshutdown. simpl. rewrite Hinit. simpl. rewrite Hlogin. simpl.
    rewrite <- app_assoc. reflexivity.
  - intros d Hcommand Hargs.
    unfold Server.process_command, Server.py_get, dict_get_default at 2 3.
    rewrite Hcommand, Hargs. unfold Server.dispatch, py_eq_str.
    change (String.eqb "connect_with_credentials" "test_connection") with false.
    change (String.eqb "connect_with_credentials" "connect_with_credentials")
      with true.
    cbv iota. unfold Server.connect_with_credentials, Server.unpack. run.
    rewrite Hshutdown. simpl. rewrite Hinit. simpl. rewrite Hlogin. simpl.
    rewrite <- app_assoc. reflexivity.
Qed.

Lemma filter_sublist {A} (f : A -> bool) (l : list A) :
  sublist (List.filter f l) l.
Proof.
  induction l as [|a l IH]; simpl.
  - constructor.
  - destruct (f a); constructor; exact IH.
Qed.

Lemma contains_occurs (needle hay : string) :
  needle <> "" -> contains needle hay = true <-> occurs_in needle hay.
Proof.
  intros Hneedle. unfold contains, occurs_in.
  destruct (String.index 0 needle hay) as [m|] eqn:Hindex.
  - split; [intros _ | reflexivity].
    exists m. eapply index_correct1. exact Hindex.
  - split; [discriminate |]. intros [m Hm]. exfalso.
    apply (index_correct3 0 m needle hay Hindex Hneedle); [lia | exact Hm].
Qed.

(** X7. [get_symbols], in both files.  A terminal without a symbol list
    gives the failure "No symbols found".  Otherwise the operation
    succeeds, also with nothing to return, and returns the entries of
    some symbols [kept], in the terminal's order, where [kept] holds
    exactly the symbols that are visible and whose name has "USD"
    somewhere in it. *)
Theorem get_symbols_filter
  (w : world T) (symbols : option (list SymbolInfo)) (t' : T) :
  mt5_symbols_get (ext w) = (Ret symbols, t') ->
  match symbols with
  | None =>
      fst (Bridge.get_symbols w) = Ret (failure "No symbols found")
      /\ fst (Server.get_symbols w) = Ret (failure "No symbols found")
  | Some symbols =>
      exists kept : list SymbolInfo,
        fst (Bridge.get_symbols w)
        = Ret [("success", PBool true);
               ("symbols", PList (map (fun s => PDict (symbol_dict s)) kept))]
        /\ fst (Server.get_symbols w) = fst (Bridge.get_symbols w)
        /\ sublist kept symbols
        /\ forall s : SymbolInfo,
            In s kept
            <-> In s symbols /\ si_visible s = true /\ occurs_in "USD" (si_name s)
  end.
Proof.
  intros Hget. unfold Bridge.get_symbols, Server.get_symbols. run.
  rewrite Hget. destruct symbols as [symbols|]; simpl; [| split; reflexivity].
  exists (List.filter (fun s => si_visible s && contains "USD" (si_name s)) symbols).
  split; [reflexivity |]. split; [reflexivity |]. split.
  - apply filter_sublist.
  - intros s. rewrite filter_In, andb_true_iff, contains_occurs by discriminate.
    tauto.
Qed.

End Adapter.

(** ** Orders *)

Section Orders.
Context {py : Python} {k : MT5Constants} {T : Type} {mt5 : Terminal T}.

(** X8. The one-shot [place_order] on numbers: the request it sends is
    the seven fixed entries (a deal, good till cancelled, immediate or
    cancel) followed by those of price, sl, tp that are above zero, in
    that order; and when the terminal answers with a result, success is
    reported exactly for the return code TRADE_RETCODE_DONE, any other
    code giving "Order failed: " and the terminal's comment. *)
Theorem place_order_request_and_outcome
  (symbol order_type volume price sl tp comment : pyval) (w : world T) :
  is_number price -> is_number sl -> is_number tp ->
  log (snd (Bridge.place_order symbol order_type volume price sl tp comment w))
  = (log w ++ [Mt5 (OrderSend (order_request symbol order_type volume price sl tp
                                 comment))])%list
  /\ forall (r : OrderSendResult) (t' : T),
      mt5_order_send (order_request symbol order_type volume price sl tp comment)
        (ext w) = (Ret (Some r), t') ->
      fst (Bridge.place_order symbol order_type volume price sl tp comment w)
      = Ret (order_outcome "Order failed: "
               [("success", PBool true);
                ("order", PDict [("ticket", PInt (osr_order r));
                                 ("volume", PFloat (osr_volume r));
                                 ("price", PFloat (osr_price r));
                                 ("comment", PStr (osr_comment r))])] r).
Proof.
  intros Hprice Hsl Htp.
  destruct price; try contradiction; destruct sl; try contradiction;
    destruct tp; try contradiction; clear Hprice Hsl Htp;
    unfold Bridge.place_order, py_gt0, order_request, optional_field,
      order_outcome, gt0;
    repeat match goal with
           | |- context [Z.ltb 0 ?z] => destruct (Z.ltb 0 z)
           | |- context [PrimFloat.ltb 0 ?f] => destruct (PrimFloat.ltb 0 f)
           end;
    run;
    (split;
     [ match goal with
       | |- context [mt5_order_send ?req ?t] =>
           destruct (mt5_order_send req t) as [[[?|]|?] ?]
       end; simpl;
       try match goal with |- context [negb ?b] => destruct b end;
       reflexivity
     | intros r t' Hsend; rewrite Hsend; simpl;
       destruct (osr_retcode r =? TRADE_RETCODE_DONE); reflexivity ]).
Qed.

(** X9. [close_position] when the position is found and the terminal
    answers the closing order with a result: success, with the ticket
    as "closed_ticket", exactly for the return code TRADE_RETCODE_DONE;
    any other code gives "Close failed: " and the terminal's comment.
    Either way the lookup and the order are the only native calls. *)
Theorem close_position_outcome
  (n : Z) (w : world T) (position : Position) (rest : list Position)
  (r : OrderSendResult) (t1 t2 : T) :
  mt5_positions_get (Some n) (ext w) = (Ret (Some (position :: rest)), t1) ->
  mt5_order_send (close_request position) t1 = (Ret (Some r), t2) ->
  Bridge.close_position n w
  = (Ret (order_outcome "Close failed: "
            [("success", PBool true); ("closed_ticket", PInt n)] r),
     World t2
       (log w ++ [Mt5 (PositionsGet (Some n));
                  Mt5 (OrderSend (close_request position))])
       (clients w))
  /\ forall ticket : pyval,
      py_int ticket = Ret n ->
      Server.close_position ticket w
      = (Ret (order_outcome "Close failed: "
                [("success", PBool true); ("closed_ticket", PInt n)] r),
         World t2
           (log w ++ [Mt5 (PositionsGet (Some n));
                      Mt5 (OrderSend (close_request position))])
           (clients w)).
Proof.
  intros Hget Hsend. split; [| intros ticket Hticket];
    unfold Bridge.close_position, Server.close_position, order_outcome;
    rewrite ?Hticket; run; rewrite Hget; simpl; rewrite Hsend; simpl;
    destruct (osr_retcode r =? TRADE_RETCODE_DONE); simpl;
    rewrite ?Hticket; simpl; rewrite <- app_assoc; reflexivity.
Qed.

(** X10. The server's [place_order] converts volume, type, price, sl
    and tp before it sends anything: when one of the conversions
    raises, no order reaches the terminal, the world is as it was, and
    the failure returned carries the message of a conversion that
    raised. *)
Theorem server_place_order_bad_number
  (symbol order_type volume price sl tp comment : pyval) (w : world T) (e : exn) :
  py_float volume = Raise e \/ py_int order_type = Raise e
  \/ py_float price = Raise e \/ py_float sl = Raise e \/ py_float tp = Raise e ->
  exists e' : exn,
    (py_float volume = Raise e' \/ py_int order_type = Raise e'
     \/ py_float price = Raise e' \/ py_float sl = Raise e'
     \/ py_float tp = Raise e')
    /\ Server.place_order symbol order_type volume price sl tp comment w
       = (Ret [("success", PBool false); ("error", PStr (str_exn e'))], w).
Proof.
  intros Hbad. unfold Server.place_order, Server.set_if_positive.
  destruct (py_float volume) as [vol|e1] eqn:Hvol;
    [| exists e1; split; [tauto | reflexivity]].
  destruct (py_int order_type) as [ty|e2] eqn:Hty;
    [| exists e2; split; [tauto | reflexivity]].
  destruct (py_float price) as [fprice|e3] eqn:Hprice;
    [| exists e3; split; [tauto | reflexivity]].
  destruct (py_float sl) as [fsl|e4] eqn:Hsl;
    [| exists e4; split; [tauto |];
       run; destruct (PrimFloat.ltb 0 fprice); reflexivity].
  destruct (py_float tp) as [ftp|e5] eqn:Htp;
    [| exists e5; split; [tauto |];
       run; destruct (PrimFloat.ltb 0 fprice), (PrimFloat.ltb 0 fsl); reflexivity].
  exfalso. destruct Hbad as [H|[H|[H|[H|H]]]]; discriminate.
Qed.

(** X11. The server's [get_market_data] checks its input before it asks
    the terminal: a timeframe that is a list or a dict cannot be a key
    of the table, and a count that [int()] rejects cannot be passed
    on; both give a failure dict and leave the world as it was. *)
Theorem server_get_market_data_bad_input (symbol : pyval) (w : world T) :
  (forall (timeframe count : pyval),
      (exists l, timeframe = PList l) \/ (exists d, timeframe = PDict d) ->
      Server.get_market_data symbol timeframe count w
      = (Ret [("success", PBool false);
              ("error", PStr ("unhashable type: '" ++ type_name timeframe ++ "'"))],
         w))
  /\ (forall (timeframe : string) (count : pyval) (e : exn),
         py_int count = Raise e ->
         Server.get_market_data symbol (PStr timeframe) count w
         = (Ret [("success", PBool false); ("error", PStr (str_exn e))], w)).
Proof.
  split.
  - intros timeframe count [[l ->] | [d ->]]; reflexivity.
  - intros timeframe count e Hcount.
    unfold Server.get_market_data, tf_map_get. rewrite Hcount. reflexivity.
Qed.

End Orders.

(** ** The server's connection handler *)

Section Handler.
Context {py : Python} {k : MT5Constants} {T : Type} {mt5 : Terminal T}.

(** X12. The server's [place_order], once its five conversions have
    succeeded: the request it sends is the one-shot request built from
    the converted numbers, and the outcome follows the return code in
    the same way. *)
Theorem server_place_order_request_and_outcome
  (symbol order_type volume price sl tp comment : pyval) (w : world T)
  (vol fprice fsl ftp : float) (ty : Z) :
  py_float volume = Ret vol -> py_int order_type = Ret ty ->
  py_float price = Ret fprice -> py_float sl = Ret fsl -> py_float tp = Ret ftp ->
  log (snd (Server.place_order symbol order_type volume price sl tp comment w))
  = (log w ++ [Mt5 (OrderSend (order_request symbol (PInt ty) (PFloat vol)
                                 (PFloat fprice) (PFloat fsl) (PFloat ftp)
                                 comment))])%list
  /\ forall (r : OrderSendResult) (t' : T),
      mt5_order_send (order_request symbol (PInt ty) (PFloat vol) (PFloat fprice)
                        (PFloat fsl) (PFloat ftp) comment)
        (ext w) = (Ret (Some r), t') ->
      fst (Server.place_order symbol order_type volume price sl tp comment w)
      = Ret (order_outcome "Order failed: "
               [("success", PBool true);
                ("order", PDict [("ticket", PInt (osr_order r));
                                 ("volume", PFloat (osr_volume r));
                                 ("price", PFloat (osr_price r));
                                 ("comment", PStr (osr_comment r))])] r).
Proof.
  intros Hvol Hty Hprice Hsl Htp.
  unfold Server.place_order, Server.set_if_positive, order_request,
    optional_field, order_outcome, gt0.
  rewrite Hvol, Hty, Hprice, Hsl, Htp. run.
  destruct (PrimFloat.ltb 0 fprice), (PrimFloat.ltb 0 fsl), (PrimFloat.ltb 0 ftp);
    simpl;
    (split;
     [ match goal with
       | |- context [mt5_order_send ?req ?t] =>
           destruct (mt5_order_send req t) as [[[?|]|?] ?]
       end; simpl;
       try match goal with |- context [negb ?b] => destruct b end;
       reflexivity
     | intros r t' Hsend; rewrite Hsend; simpl;
       destruct (osr_retcode r =? TRADE_RETCODE_DONE); reflexivity ]).
Qed.

(** X13. A message that decodes to a JSON value that is no object gets
    no reply.  [data.get] raises AttributeError before the [try] of
    [process_command], and again in the handler that catches it, so
    the exception leaves [handle_client]: nothing is sent, no native
    call is made, the following messages are not read, and the client
    is taken out of the set. *)
Theorem non_object_message_gets_no_reply
  (data : pyval) (message : string) (w : world T) :
  (forall d, data <> PDict d) ->
  json_loads message = Ret data ->
  let e := Exn AttributeError ("'" ++ type_name data ++ "' object has no attribute 'get'") in
  Server.process_command data w = (Raise e, w)
  /\ (forall previous, Server.handle_message previous message w = (Raise e, w))
  /\ (forall (websocket : nat) (rest : list string) (closing : result unit),
         Server.handle_client websocket (message :: rest) closing w
         = (Raise e,
            World (ext w) (log w) (({[websocket]} ∪ clients w) ∖ {[websocket]}))).
Proof.
  intros Hdata Hloads e.
  assert (Hget : forall key default (w0 : world T),
             Server.py_get data key default w0 = (Raise e, w0)).
  { intros key default w0. destruct data; try reflexivity.
    exfalso. eapply Hdata. reflexivity. }
  assert (Hcommand : forall w0 : world T,
             Server.process_command data w0 = (Raise e, w0)).
  { intros w0. unfold Server.process_command, bind. rewrite Hget. reflexivity. }
  assert (Hmessage : forall previous (w0 : world T),
             Server.handle_message previous message w0 = (Raise e, w0)).
  { intros previous w0. unfold Server.handle_message. rewrite Hloads.
    unfold try_except, bind. rewrite Hcommand.
    unfold Server.on_error, bind. cbn [is_JSONDecodeError exn_cls e].
    rewrite Hget. reflexivity. }
  split; [apply Hcommand |]. split; [intros previous; apply Hmessage |].
  intros websocket rest closing.
  unfold Server.handle_client, try_finally, try_except, clients_add,
    clients_remove.
  cbn [Server.receive_loop]. unfold bind. rewrite Hmessage. reflexivity.
Qed.

(** X14. A command of the server that takes arguments, called with too
    few or too many of them: the call of the method raises TypeError
    inside the [try] of [process_command], which answers
    [{id, success: false, error}]; the method is not entered and the
    world is as it was. *)
Theorem wrong_argument_count_is_error_reply
  (command method : string) (least most : nat)
  (d : dict) (args : list pyval) (w : world T) :
  In (command, (method, least, most)) signatures ->
  dict_get d "command" = Some (PStr command) ->
  dict_get d "args" = Some (PList args) ->
  (length args < least \/ most < length args)%nat ->
  Server.process_command (PDict d) w
  = (Ret (PDict [("id", dict_get_default d "id" PNone);
                 ("success", PBool false);
                 ("error", PStr (call_error method (PList args)))]),
     w).
Proof.
  intros Hsig Hcommand Hargs Hcount.
  unfold Server.process_command, Server.py_get, dict_get_default at 2 3.
  rewrite Hcommand, Hargs.
  unfold signatures in Hsig. simpl in Hsig.
  destruct Hsig as [Hsig|[Hsig|[Hsig|[Hsig|[Hsig|[]]]]]];
    injection Hsig as <- <- <- <-;
    destruct args as [|a1 [|a2 [|a3 [|a4 [|a5 [|a6 [|a7 [|a8 args]]]]]]]];
    simpl in Hcount; try lia; reflexivity.
Qed.

Lemma on_error_adds (data : option pyval) (e : exn) :
  adds_only no_print (Server.on_error data e).
Proof.
  unfold Server.on_error, Server.py_get.
  repeat first
    [ apply adds_only_bind
    | apply adds_only_raise
    | apply adds_only_ret
    | apply adds_only_send; exact I
    | progress intros
    | match goal with
      | |- adds_only _ (match ?x with _ => _ end) => destruct x
      end ].
Qed.

Lemma handle_message_adds (data : option pyval) (message : string) :
  adds_only no_print (Server.handle_message data message).
Proof.
  unfold Server.handle_message.
  destruct (json_loads message) as [d|e].
  - apply adds_only_bind; [| intros; apply adds_only_ret].
    apply adds_only_try_except; [| intros; apply on_error_adds].
    apply adds_only_bind.
    + apply (adds_only_weaken is_call); [intros [] Hev; exact Hev || exact I |].
      apply process_command_adds.
    + intros response. apply adds_only_send. exact I.
  - apply adds_only_bind; [apply on_error_adds | intros; apply adds_only_ret].
Qed.

Lemma receive_loop_adds
  (messages : list string) (data : option pyval) (closing : result unit) :
  adds_only no_print (Server.receive_loop data messages closing).
Proof.
  revert data. induction messages as [|message rest IH]; intros data; simpl.
  - apply adds_only_lift.
  - apply adds_only_bind; [apply handle_message_adds | intros; apply IH].
Qed.

(** X15. [handle_client] and the set of clients.  Whatever the messages
    are, however the connection ends and whether the handler returns
    or raises, the connection is out of the set afterwards and every
    other member is kept; and the handler never prints: it only adds
    native calls and sends to the log. *)
Theorem handle_client_leaves_the_set
  (websocket : nat) (messages : list string) (closing : result unit)
  (w : world T) :
  clients (snd (Server.handle_client websocket messages closing w))
  = clients w ∖ {[websocket]}
  /\ exists evs : list event,
      log (snd (Server.handle_client websocket messages closing w))
      = (log w ++ evs)%list
      /\ Forall no_print evs.
Proof.
  unfold Server.handle_client, try_finally, try_except, clients_add,
    clients_remove, bind. simpl.
  destruct (receive_loop_adds messages None closing
              (World (ext w) (log w) ({[websocket]} ∪ clients w)))
    as [Hclients [evs [Hlog Hevs]]].
  destruct (Server.receive_loop None messages closing
              (World (ext w) (log w) ({[websocket]} ∪ clients w)))
    as [[[]|e] w1]; simpl in *;
    try destruct (is_ConnectionClosed e); simpl;
    (split;
     [ rewrite Hclients; apply set_eq; intros x;
       rewrite !elem_of_difference, elem_of_union; tauto
     | exists evs; split; assumption ]).
Qed.

(** X16. No ConnectionClosed exception leaves [handle_client]: when
    the iteration over the socket, or a send, raises it, the handler
    returns normally. *)
Theorem handle_client_swallows_connection_closed
  (websocket : nat) (messages : list string) (closing : result unit)
  (w : world T) (e : exn) :
  fst (Server.handle_client websocket messages closing w) = Raise e ->
  is_ConnectionClosed e = false.
Proof.
  unfold Server.handle_client, try_finally, try_except, clients_add,
    clients_remove, bind. simpl.
  destruct (Server.receive_loop None messages closing _) as [[[]|e0] w1]; simpl.
  - discriminate.
  - destruct (is_ConnectionClosed e0) eqn:Hclass; simpl.
    + discriminate.
    + intros [= <-]. exact Hclass.
Qed.

(** X17. A message on which [json.loads] raises something else than
    JSONDecodeError is answered by the second [except] clause, whose
    reply takes its id from the local variable [data]: the id of the
    last message that did decode, which is another request, or None
    when no message has decoded yet on this connection. *)
Theorem decode_crash_reply_has_stale_id
  (message : string) (e : exn) (w : world T) :
  json_loads message = Raise e ->
  is_JSONDecodeError e = false ->
  log (snd (Server.handle_message None message w))
  = (log w ++ [Send (error_reply PNone e)])%list
  /\ forall last : dict,
      log (snd (Server.handle_message (Some (PDict last)) message w))
      = (log w ++ [Send (error_reply (dict_get_default last "id" PNone) e)])%list.
Proof.
  intros Hloads Hclass.
  split; [| intros last];
    unfold Server.handle_message, Server.on_error, error_reply;
    rewrite Hloads, Hclass; run;
    match goal with
    | |- context [ws_send ?v ?t] => destruct (ws_send v t) as [[[]|e'] t']
    end; reflexivity.
Qed.

(** X18. One reply per request.  For a message that decodes to an
    object, the handler sends the response of [process_command] and,
    when that send goes through, nothing else; the message becomes the
    new [data].  When the send itself raises, the handler tries one
    more send, of an error reply with the id of this request. *)
Theorem one_reply_per_request
  (previous : option pyval) (message : string) (d : dict)
  (w w1 : world T) (response : pyval) :
  json_loads message = Ret (PDict d) ->
  Server.process_command (PDict d) w = (Ret response, w1) ->
  (forall t2 : T,
      ws_send response (ext w1) = (Ret tt, t2) ->
      Server.handle_message previous message w
      = (Ret (Some (PDict d)),
         World t2 (log w1 ++ [Send response]) (clients w1)))
  /\ (forall (e : exn) (t2 : T),
         ws_send response (ext w1) = (Raise e, t2) ->
         is_JSONDecodeError e = false ->
         log (snd (Server.handle_message previous message w))
         = (log w1 ++ [Send response;
                       Send (error_reply (dict_get_default d "id" PNone) e)])%list).
Proof.
  intros Hloads Hcommand. split.
  - intros t2 Hsend. unfold Server.handle_message. rewrite Hloads.
    unfold try_except, bind, send. rewrite Hcommand, Hsend. reflexivity.
  - intros e t2 Hsend Hclass. unfold Server.handle_message. rewrite Hloads.
    unfold try_except, bind at 1 2, send at 1. rewrite Hcommand, Hsend.
    unfold Server.on_error, error_reply. rewrite Hclass. run.
    match goal with
    | |- context [ws_send ?v ?t] => destruct (ws_send v t) as [[[]|e'] t']
    end; simpl; rewrite <- app_assoc; reflexivity.
Qed.

End Handler.

(** ** The one-shot executor as a whole *)

Section Executor.
Context {py : Python} {k : MT5Constants} {T : Type} {mt5 : Terminal T}.

Ltac envelopes :=
  repeat first
    [ apply returns_envelope_try_except
    | apply returns_envelope_bind
    | apply returns_envelope_raise
    | apply returns_envelope_ret
    | apply envelope_failure
    | apply envelope_success; discriminate
    | progress intros
    | match goal with
      | |- returns_envelope (match ?x with _ => _ end) => destruct x
      | |- returns_envelope (let _ := _ in _) => cbv zeta
      end ].

Lemma bridge_connect_mt5_envelope : returns_envelope (T := T) Bridge.connect_mt5.
Proof. unfold Bridge.connect_mt5. envelopes. Qed.

Lemma bridge_connect_with_credentials_envelope (login password server : pyval) :
  returns_envelope (T := T) (Bridge.connect_with_credentials login password server).
Proof. unfold Bridge.connect_with_credentials. envelopes. Qed.

Lemma bridge_get_symbols_envelope : returns_envelope (T := T) Bridge.get_symbols.
Proof. unfold Bridge.get_symbols. envelopes. Qed.

Lemma bridge_get_market_data_envelope (symbol timeframe : pyval) (count : Z) :
  returns_envelope (T := T) (Bridge.get_market_data symbol timeframe count).
Proof. unfold Bridge.get_market_data. envelopes. Qed.

Lemma bridge_get_tick_data_envelope (symbol : pyval) :
  returns_envelope (T := T) (Bridge.get_tick_data symbol).
Proof. unfold Bridge.get_tick_data. envelopes. Qed.

Lemma bridge_place_order_envelope
  (symbol order_type volume price sl tp comment : pyval) :
  returns_envelope (T := T)
    (Bridge.place_order symbol order_type volume price sl tp comment).
Proof. unfold Bridge.place_order. envelopes. Qed.

Lemma bridge_get_positions_envelope : returns_envelope (T := T) Bridge.get_positions.
Proof. unfold Bridge.get_positions. envelopes. Qed.

Lemma bridge_close_position_envelope (ticket : Z) :
  returns_envelope (T := T) (Bridge.close_position ticket).
Proof. unfold Bridge.close_position. envelopes. Qed.

Lemma printed_app (evs1 evs2 : list event) :
  printed (evs1 ++ evs2) = (printed evs1 ++ printed evs2)%list.
Proof. unfold printed. apply flat_map_app. Qed.

Lemma printed_calls (calls : list event) :
  Forall is_call calls -> printed calls = [].
Proof.
  induction 1 as [|ev calls Hev _ IH]; [reflexivity |].
  destruct ev; try contradiction. exact IH.
Qed.

Lemma reports_once_print (r : dict) :
  operation_envelope r -> reports_once (T := T) (print (PDict r)).
Proof.
  intros Hr w. exists []. split; [constructor |].
  left. exists (PDict r). repeat split; assumption || reflexivity.
Qed.

Lemma reports_once_bind {A} (m : M T A) (f : A -> M T unit) :
  adds_only is_call m -> (forall a, reports_once (f a)) ->
  reports_once (bind m f).
Proof.
  intros Hm Hf w. unfold bind.
  destruct (Hm w) as [_ [calls [Hlog Hcalls]]].
  destruct (m w) as [[a|e] w1]; simpl in *.
  - destruct (Hf a w1) as [calls' [Hcalls' Hcases]].
    exists (calls ++ calls')%list. split; [apply Forall_app; split; assumption |].
    destruct Hcases as [[doc [Hret [Hdoc Hlog']]] | [Hraise Hlog']].
    + left. exists doc. repeat split; try assumption.
      rewrite Hlog', Hlog, <- !app_assoc. reflexivity.
    + right. split; [assumption |].
      rewrite Hlog', Hlog, <- !app_assoc. reflexivity.
  - exists calls. split; [assumption |]. right.
    split; [exists e; reflexivity | assumption].
Qed.

Lemma reports_once_operation (operation : M T dict) :
  adds_only is_call operation -> returns_envelope operation ->
  reports_once (bind operation (fun result => print (PDict result))).
Proof.
  intros Hcalls Henvelope w. unfold bind.
  destruct (Hcalls w) as [_ [calls [Hlog Hall]]].
  destruct (operation w) as [[r|e] w1] eqn:Hrun; simpl in *.
  - exists calls. split; [assumption |]. left. exists (PDict r).
    repeat split; [exact (Henvelope _ _ _ Hrun) |].
    rewrite Hlog, <- app_assoc. reflexivity.
  - exists calls. split; [assumption |]. right.
    split; [exists e; reflexivity | assumption].
Qed.

Lemma argv_at_adds (argv : list string) (i : nat) :
  adds_only (T := T) is_call (Bridge.argv_at argv i).
Proof.
  unfold Bridge.argv_at.
  destruct (nth_error argv i); [apply adds_only_ret | apply adds_only_raise].
Qed.

Lemma argv_float_or_0_adds (argv : list string) (i : nat) :
  adds_only (T := T) is_call (Bridge.argv_float_or_0 argv i).
Proof.
  unfold Bridge.argv_float_or_0. destruct (nth_error argv i).
  - apply adds_only_bind; [apply adds_only_lift | intros; apply adds_only_ret].
  - apply adds_only_ret.
Qed.

Lemma dispatch_reports_once
  (argv : list string) (command : string) (connect_result : dict) :
  operation_envelope connect_result ->
  reports_once (T := T) (Bridge.dispatch argv command connect_result).
Proof.
  intros Hconnect. unfold Bridge.dispatch.
  repeat match goal with
         | |- reports_once (if ?c then _ else _) => destruct c
         end;
    cbv zeta;
    repeat first
      [ apply reports_once_print; first [exact Hconnect | apply envelope_failure
                                        | apply envelope_success; discriminate]
      | apply reports_once_operation;
        [ first [ apply bridge_connect_with_credentials_calls
                | apply bridge_get_symbols_calls
                | apply bridge_get_market_data_calls
                | apply bridge_get_tick_data_calls
                | apply bridge_place_order_calls
                | apply bridge_get_positions_calls
                | apply bridge_close_position_calls ]
        | first [ apply bridge_connect_with_credentials_envelope
                | apply bridge_get_symbols_envelope
                | apply bridge_get_market_data_envelope
                | apply bridge_get_tick_data_envelope
                | apply bridge_place_order_envelope
                | apply bridge_get_positions_envelope
                | apply bridge_close_position_envelope ] ]
      | apply reports_once_bind;
        [ first [ apply argv_at_adds
                | apply argv_float_or_0_adds
                | apply adds_only_lift
                | apply adds_only_call; exact I
                | destruct (nth_error argv 4);
                  [apply adds_only_lift | apply adds_only_ret] ]
        | intros ] ].
Qed.

(** X19. One invocation, at most one document.  Whatever the arguments
    and the terminal, [main] prints at most one JSON document, and the
    document is an operation envelope (a boolean "success", with an
    "error" text exactly when it is false); when [main] returns
    normally it has printed exactly one. *)
Theorem main_prints_one_envelope (argv : list string) (w : world T) :
  exists evs : list event,
    log (snd (Bridge.main argv w)) = (log w ++ evs)%list
    /\ Forall envelope_doc (printed evs)
    /\ (length (printed evs) <= 1)%nat
    /\ (fst (Bridge.main argv w) = Ret tt -> length (printed evs) = 1%nat).
Proof.
  assert (Hone : forall r : dict, operation_envelope r ->
            exists evs : list event,
              log (snd (print (PDict r) w)) = (log w ++ evs)%list
              /\ Forall envelope_doc (printed evs)
              /\ (length (printed evs) <= 1)%nat
              /\ (fst (print (T := T) (PDict r) w) = Ret tt
                  -> length (printed evs) = 1%nat)).
  { intros r Hr. exists [Print (PDict r)]. simpl.
    repeat split; auto. }
  destruct argv as [|prog [|command rest]];
    [apply Hone, envelope_failure | apply Hone, envelope_failure |].
  unfold Bridge.main, bind.
  destruct (bridge_connect_mt5_calls w) as [_ [calls0 [Hlog0 Hcalls0]]].
  destruct (Bridge.connect_mt5 w) as [[r|e] w1] eqn:Hconnect; simpl in Hlog0.
  2:{ exists calls0. simpl. rewrite (printed_calls _ Hcalls0). simpl.
      repeat split; auto. discriminate. }
  pose proof (bridge_connect_mt5_envelope _ _ _ Hconnect) as Hr.
  assert (Hfail : exists evs : list event,
             log (snd (print (PDict r) w1)) = (log w ++ evs)%list
             /\ Forall envelope_doc (printed evs)
             /\ (length (printed evs) <= 1)%nat
             /\ (fst (print (T := T) (PDict r) w1) = Ret tt
                 -> length (printed evs) = 1%nat)).
  { exists (calls0 ++ [Print (PDict r)])%list. simpl.
    rewrite Hlog0, <- app_assoc, printed_app, (printed_calls _ Hcalls0). simpl.
    repeat split; auto. }
  destruct (dict_get r "success") as [[| [|] | | | | |]|]; try exact Hfail.
  clear Hfail. unfold try_finally.
  destruct (dispatch_reports_once (prog :: command :: rest) command r Hr w1)
    as [calls [Hcalls Hcases]].
  destruct (Bridge.dispatch (prog :: command :: rest) command r w1) as [out w2].
  simpl in Hcases. unfold call.
  destruct (mt5_shutdown (ext w2)) as [[[]|e] t3]; simpl;
    destruct Hcases as [[doc [Hret [Hdoc Hlog]]] | [[e0 Hraise] Hlog]];
    rewrite Hlog, Hlog0;
    first
      [ exists (calls0 ++ calls ++ [Print doc; Mt5 Shutdown])%list;
        split; [rewrite <- !app_assoc; reflexivity |];
        rewrite !printed_app, (printed_calls _ Hcalls0), (printed_calls _ Hcalls);
        simpl; repeat split; auto
      | exists (calls0 ++ calls ++ [Mt5 Shutdown])%list;
        split; [rewrite <- !app_assoc; reflexivity |];
        rewrite !printed_app, (printed_calls _ Hcalls0), (printed_calls _ Hcalls);
        simpl; repeat split; auto; subst out; discriminate ].
Qed.

End Executor.

(** ** Paths of the two [main] functions *)

Section Mains.
Context {py : Python} {k : MT5Constants} {T : Type} {mt5 : Terminal T}.

(** X20. When the implicit connect fails, the one-shot [main] prints
    the failure of the connect and returns: whatever the command is,
    it is not dispatched, and no further native call is made, the
    Shutdown call included. *)
Theorem connect_failure_stops_main
  (prog command : string) (rest : list string) (w w1 : world T) (r : dict) :
  Bridge.connect_mt5 w = (Ret r, w1) ->
  dict_get r "success" = Some (PBool false) ->
  Bridge.main (prog :: command :: rest) w
  = (Ret tt, World (ext w1) (log w1 ++ [Print (PDict r)]) (clients w1)).
Proof.
  intros Hconnect Hsuccess. unfold Bridge.main, bind.
  rewrite Hconnect, Hsuccess. reflexivity.
Qed.

(** X21. Two commands of the one-shot [main], once the implicit
    connect has succeeded.  "test_connection" prints the result of
    that connect, without a second connect, and shuts down.
    "shutdown" calls Shutdown, prints its message, and then the
    [finally] clause calls Shutdown a second time.  Further arguments
    are ignored. *)
Theorem test_connection_and_shutdown_commands
  (prog : string) (rest : list string) (w w1 : world T) (r : dict) :
  Bridge.connect_mt5 w = (Ret r, w1) ->
  dict_get r "success" = Some (PBool true) ->
  log (snd (Bridge.main (prog :: "test_connection" :: rest) w))
  = (log w1 ++ [Print (PDict r); Mt5 Shutdown])%list
  /\ (forall t2 : T,
         mt5_shutdown (ext w1) = (Ret tt, t2) ->
         log (snd (Bridge.main (prog :: "shutdown" :: rest) w))
         = (log w1 ++ [Mt5 Shutdown;
                       Print (PDict [("success", PBool true);
                                     ("message", PStr "MT5 connection closed")]);
                       Mt5 Shutdown])%list).
Proof.
  intros Hconnect Hsuccess.
  split; [| intros t2 Hshutdown];
    rewrite (main_connected _ _ _ _ _ _ Hconnect Hsuccess),
      log_try_finally_shutdown.
  - unfold Bridge.dispatch. simpl. rewrite <- app_assoc. reflexivity.
  - unfold Bridge.dispatch. simpl. unfold bind, call, print.
    rewrite Hshutdown. simpl. rewrite <- !app_assoc. reflexivity.
Qed.

(** X22. Starting the server.  When the terminal cannot be initialised,
    the server's [main] returns after that one call and never serves.
    Otherwise it shuts the probe down, connects, and serves on the
    world that the connect leaves, whether the connect succeeded or
    failed; and no exception of the serving leaves [main]. *)
Theorem server_main_startup (serve : M T unit) (w : world T) :
  (forall t1 : T,
      mt5_initialize (ext w) = (Ret false, t1) ->
      ServerStartup.main serve w
      = (Ret tt, World t1 (log w ++ [Mt5 Initialize]) (clients w)))
  /\ (forall (t1 t2 : T) (r : dict) (w3 : world T),
         mt5_initialize (ext w) = (Ret true, t1) ->
         mt5_shutdown t1 = (Ret tt, t2) ->
         Server.connect_mt5
           (World t2 (log w ++ [Mt5 Initialize; Mt5 Shutdown]) (clients w))
         = (Ret r, w3) ->
         fst (ServerStartup.main serve w) = Ret tt
         /\ snd (ServerStartup.main serve w) = snd (serve w3)).
Proof.
  split.
  - intros t1 Hinit. unfold ServerStartup.main, bind, call.
    rewrite Hinit. reflexivity.
  - intros t1 t2 r w3 Hinit Hshutdown Hconnect.
    unfold ServerStartup.main, ServerStartup.start_server, try_except, bind, call.
    simpl. rewrite Hinit. simpl. rewrite Hshutdown. simpl.
    rewrite <- app_assoc. simpl. rewrite Hconnect.
    destruct (serve w3) as [[[]|e] w4]; split; reflexivity.
Qed.

End Mains.

(** ** More runs on the sample terminals *)

Section SampleRuns.
#[local] Existing Instance Sample.python.
#[local] Existing Instance Sample.constants.
#[local] Existing Instance Sample.terminal.

Import Sample.

Lemma connect_mt5_outcomes_witness :
  exists v : pyval,
    fst (Bridge.connect_mt5 (start unavailable))
    = Ret [("success", PBool false);
           ("error", PStr ("initialize() failed, error code = " ++ format v))]
    /\ log (snd (Bridge.connect_mt5 (start unavailable)))
       = [Mt5 Initialize; Mt5 LastError].
Proof.
  destruct (Bridge.connect_mt5 (start unavailable)) as [out w1] eqn:Hrun.
  assert (Hout : out = Ret (failure ("initialize() failed, error code = "
                                       ++ format (PList [PInt (-10003);
                                                         PStr "IPC initialize failed"]))))
    by (vm_compute in Hrun; injection Hrun as <- _; reflexivity).
  subst out.
  destruct (connect_mt5_outcomes (start unavailable) w1 _ (or_introl Hrun))
    as [[a [Hr _]] | [[Hr _] | [v [Hr Hlog]]]]; try discriminate.
  exists v. split; [rewrite Hr; reflexivity | exact Hlog].
Defined.

Lemma connect_with_credentials_outcomes_witness :
  log (snd (Bridge.connect_with_credentials (PStr "5001") (PStr "secret")
              (PStr "Demo-Server") (start connected)))
  = [Mt5 Shutdown; Mt5 Initialize;
     Mt5 (Login 5001 (PStr "secret") (PStr "Demo-Server"));
     Mt5 GetAccountInfo].
Proof.
  destruct (Bridge.connect_with_credentials (PStr "5001") (PStr "secret")
              (PStr "Demo-Server") (start connected)) as [out w1] eqn:Hrun.
  assert (Hout : out = Ret [("success", PBool true);
                            ("account", PDict (account_dict demo_account))])
    by (vm_compute in Hrun; injection Hrun as <- _; reflexivity).
  subst out.
  destruct (connect_with_credentials_outcomes _ _ _ _ w1 _ (or_introl Hrun))
    as [[a [n [Hn [_ Hlog]]]] | [[n [_ [Hr _]]] | [[n [v [_ [Hr _]]]] | [v [Hr _]]]]];
    try discriminate.
  assert (Hn' : py_int (PStr "5001") = Ret 5001) by (vm_compute; reflexivity).
  rewrite Hn' in Hn. injection Hn as <-. exact Hlog.
Defined.

Lemma connect_with_credentials_bad_login_witness :
  Bridge.connect_with_credentials (PStr "abc") (PStr "secret") (PStr "Demo-Server")
    (start connected)
  = (Raise (Exn ValueError "invalid literal for int() with base 10: 'abc'"),
     World connected [Mt5 Shutdown; Mt5 Initialize] ∅).
Proof.
  assert (Hlogin : py_int (PStr "abc")
                   = Raise (Exn ValueError "invalid literal for int() with base 10: 'abc'"))
    by (vm_compute; reflexivity).
  assert (Hshutdown : mt5_shutdown (ext (start connected)) = (Ret tt, connected))
    by reflexivity.
  assert (Hinit : mt5_initialize connected = (Ret true, connected)) by reflexivity.
  exact (proj1 (connect_with_credentials_bad_login (PStr "abc") (PStr "secret")
                  (PStr "Demo-Server") (start connected) _ connected connected
                  Hlogin Hshutdown Hinit)).
Defined.

Lemma place_order_request_and_outcome_witness :
  log (snd (Bridge.place_order (PStr "EURUSD") (PInt 0) (PFloat 0.5)
              (PInt 0) (PFloat 1.5) (PFloat (-1)) (PStr "") (start connected)))
  = [Mt5 (OrderSend [("action", PInt 1); ("symbol", PStr "EURUSD");
                     ("volume", PFloat 0.5); ("type", PInt 0);
                     ("comment", PStr ""); ("type_time", PInt 0);
                     ("type_filling", PInt 1); ("sl", PFloat 1.5)])].
Proof.
  exact (proj1 (place_order_request_and_outcome (PStr "EURUSD") (PInt 0)
                  (PFloat 0.5) (PInt 0) (PFloat 1.5) (PFloat (-1)) (PStr "")
                  (start connected) I I I)).
Defined.

Lemma close_position_outcome_witness :
  Bridge.close_position 7 (start connected)
  = (Ret [("success", PBool true); ("closed_ticket", PInt 7)],
     World connected
       [Mt5 (PositionsGet (Some 7)); Mt5 (OrderSend (close_request buy_position))] ∅).
Proof.
  assert (Hget : mt5_positions_get (Some 7) (ext (start connected))
                 = (Ret (Some [buy_position]), connected)) by (vm_compute; reflexivity).
  assert (Hsend : mt5_order_send (close_request buy_position) connected
                  = (Ret (Some done_result), connected)) by (vm_compute; reflexivity).
  exact (proj1 (close_position_outcome 7 (start connected) buy_position []
                  done_result connected connected Hget Hsend)).
Defined.

Lemma server_place_order_bad_number_witness :
  exists e' : exn,
    Server.place_order (PStr "EURUSD") (PInt 0) (PStr "a lot")
      (PInt 0) (PInt 0) (PInt 0) (PStr "") (start connected)
    = (Ret [("success", PBool false); ("error", PStr (str_exn e'))],
       start connected).
Proof.
  assert (Hvolume : py_float (PStr "a lot")
                    = Raise (Exn ValueError
                               "invalid literal for int() with base 10: 'a lot'"))
    by (vm_compute; reflexivity).
  destruct (server_place_order_bad_number (PStr "EURUSD") (PInt 0) (PStr "a lot")
              (PInt 0) (PInt 0) (PInt 0) (PStr "") (start connected) _
              (or_introl Hvolume)) as [e' [_ Hrun]].
  exists e'. exact Hrun.
Defined.

Lemma server_get_market_data_bad_input_witness :
  Server.get_market_data (PStr "EURUSD") (PList []) (PInt 10) (start connected)
  = (Ret [("success", PBool false); ("error", PStr "unhashable type: 'list'")],
     start connected)
  /\ Server.get_market_data (PStr "EURUSD") (PStr "M5") (PStr "ten") (start connected)
     = (Ret [("success", PBool false);
             ("error", PStr "invalid literal for int() with base 10: 'ten'")],
        start connected).
Proof.
  destruct (server_get_market_data_bad_input (PStr "EURUSD") (start connected))
    as [Htimeframe Hcount].
  split.
  - apply (Htimeframe (PList []) (PInt 10)). left. exists []. reflexivity.
  - apply (Hcount "M5" (PStr "ten")
             (Exn ValueError "invalid literal for int() with base 10: 'ten'")).
    vm_compute. reflexivity.
Defined.

Lemma server_place_order_request_witness :
  log (snd (Server.place_order (PStr "EURUSD") (PStr "1") (PStr "2")
              (PInt 0) (PInt 3) (PInt 0) (PStr "") (start connected)))
  = [Mt5 (OrderSend (order_request (PStr "EURUSD") (PInt 1) (PFloat 2)
                       (PFloat 0) (PFloat 3) (PFloat 0) (PStr "")))].
Proof.
  assert (Hvol : py_float (PStr "2") = Ret 2%float) by (vm_compute; reflexivity).
  assert (Hty : py_int (PStr "1") = Ret 1) by (vm_compute; reflexivity).
  assert (Hzero : py_float (PInt 0) = Ret 0%float) by (vm_compute; reflexivity).
  assert (Hsl : py_float (PInt 3) = Ret 3%float) by (vm_compute; reflexivity).
  exact (proj1 (server_place_order_request_and_outcome (PStr "EURUSD") (PStr "1")
                  (PStr "2") (PInt 0) (PInt 3) (PInt 0) (PStr "") (start connected)
                  2%float 0%float 3%float 0%float 1 Hvol Hty Hzero Hsl Hzero)).
Defined.

Lemma non_object_message_witness :
  Server.handle_client 1 ["[]"; "{}"] (Ret tt) (start connected)
  = (Raise (Exn AttributeError "'list' object has no attribute 'get'"),
     World connected [] (({[1%nat]} ∪ ∅) ∖ {[1%nat]})).
Proof.
  assert (Hloads : json_loads "[]" = Ret (PList [])) by (vm_compute; reflexivity).
  assert (Hlist : forall d, PList [] <> PDict d) by discriminate.
  destruct (non_object_message_gets_no_reply (PList []) "[]" (start connected)
              Hlist Hloads) as [_ [_ Hclient]].
  apply (Hclient 1%nat ["{}"] (Ret tt)).
Defined.

Lemma wrong_argument_count_witness :
  Server.process_command
    (PDict [("id", PInt 3); ("command", PStr "get_tick"); ("args", PList [])])
    (start connected)
  = (Ret (PDict [("id", PInt 3); ("success", PBool false);
                 ("error", PStr "get_tick_data() got unexpected arguments")]),
     start connected).
Proof.
  assert (Hsig : In ("get_tick", ("get_tick_data", 1%nat, 1%nat)) signatures)
    by (simpl; tauto).
  assert (Hcount : (length (@nil pyval) < 1 \/ 1 < length (@nil pyval))%nat)
    by (left; simpl; lia).
  exact (wrong_argument_count_is_error_reply "get_tick" "get_tick_data" 1 1
           [("id", PInt 3); ("command", PStr "get_tick"); ("args", PList [])]
           [] (start connected) Hsig eq_refl eq_refl Hcount).
Defined.

Lemma handle_client_swallows_witness :
  is_ConnectionClosed (Exn AttributeError "'list' object has no attribute 'get'")
  = false.
Proof.
  apply (handle_client_swallows_connection_closed 1 ["[]"] (Ret tt) (start connected)).
  vm_compute. reflexivity.
Defined.

Lemma connect_failure_stops_main_witness :
  Bridge.main ["mt5_bridge.py"; "get_positions"] (start unavailable)
  = (Ret tt,
     World unavailable
       [Mt5 Initialize; Mt5 LastError;
        Print (PDict [("success", PBool false);
                      ("error",
                       PStr "initialize() failed, error code = <list>")])]
       ∅).
Proof.
  apply (connect_failure_stops_main "mt5_bridge.py" "get_positions" []
           (start unavailable) (World unavailable [Mt5 Initialize; Mt5 LastError] ∅)
           [("success", PBool false);
            ("error", PStr "initialize() failed, error code = <list>")]);
    vm_compute; reflexivity.
Defined.

Lemma test_connection_and_shutdown_witness :
  log (snd (Bridge.main ["mt5_bridge.py"; "test_connection"] (start connected)))
  = [Mt5 Initialize; Mt5 GetAccountInfo;
     Print (PDict [("success", PBool true);
                   ("account", PDict (account_dict demo_account))]);
     Mt5 Shutdown]
  /\ log (snd (Bridge.main ["mt5_bridge.py"; "shutdown"] (start connected)))
     = [Mt5 Initialize; Mt5 GetAccountInfo; Mt5 Shutdown;
        Print (PDict [("success", PBool true);
                      ("message", PStr "MT5 connection closed")]);
        Mt5 Shutdown].
Proof.
  assert (Hconnect :
            Bridge.connect_mt5 (start connected)
            = (Ret [("success", PBool true);
                    ("account", PDict (account_dict demo_account))],
               World connected [Mt5 Initialize; Mt5 GetAccountInfo] ∅))
    by (vm_compute; reflexivity).
  destruct (test_connection_and_shutdown_commands "mt5_bridge.py" []
              (start connected) _ _ Hconnect eq_refl) as [Htest Hshutdown].
  split; [exact Htest | apply (Hshutdown connected); reflexivity].
Defined.

Lemma server_main_startup_witness :
  ServerStartup.main (Server.handle_client 1 ["{}"] (Ret tt)) (start unavailable)
  = (Ret tt, World unavailable [Mt5 Initialize] ∅)
  /\ fst (ServerStartup.main (Server.handle_client 1 ["{}"] (Ret tt)) (start connected))
     = Ret tt.
Proof.
  split.
  - apply (proj1 (server_main_startup (Server.handle_client 1 ["{}"] (Ret tt))
                    (start unavailable)) unavailable).
    reflexivity.
  - apply (proj2 (server_main_startup (Server.handle_client 1 ["{}"] (Ret tt))
                    (start connected)) connected connected
             [("success", PBool true); ("account", PDict (account_dict demo_account))]
             (World connected
                [Mt5 Initialize; Mt5 Shutdown; Mt5 Initialize; Mt5 GetAccountInfo] ∅));
      vm_compute; reflexivity.
Defined.

End SampleRuns.

Section DeskRuns.
#[local] Existing Instance Desk.python.
#[local] Existing Instance Sample.constants.
#[local] Existing Instance Desk.terminal.

Import Desk.

Lemma get_symbols_exception_witness :
  Bridge.get_symbols (start broken)
  = (Raise (Exn OtherException "IPC timeout"), World broken [Mt5 SymbolsGet] ∅).
Proof.
  assert (Hraise : mt5_symbols_get (ext (start broken))
                   = (Raise (Exn OtherException "IPC timeout"), broken))
    by reflexivity.
  exact (proj1 (get_symbols_exception (start broken) _ broken Hraise)).
Defined.

Lemma get_symbols_filter_witness :
  exists kept : list SymbolInfo,
    fst (Bridge.get_symbols (start listed))
    = Ret [("success", PBool true);
           ("symbols", PList (map (fun s => PDict (symbol_dict s)) kept))]
    /\ In eurusd kept /\ ~ In gbpjpy kept /\ ~ In usdchf_hidden kept.
Proof.
  assert (Hget : mt5_symbols_get (ext (start listed))
                 = (Ret (Some [eurusd; gbpjpy; usdchf_hidden]), listed))
    by reflexivity.
  destruct (get_symbols_filter (start listed) _ listed Hget)
    as [kept [Hrun [_ [_ Hkept]]]].
  exists kept. split; [exact Hrun |]. repeat split.
  - apply Hkept. split; [simpl; tauto |]. split; [reflexivity |].
    exists 3%nat. reflexivity.
  - intros Hin. apply Hkept in Hin. destruct Hin as [_ [_ [m Hm]]].
    destruct m as [|[|[|[|[|[|[|m]]]]]]]; simpl in Hm; discriminate.
  - intros Hin. apply Hkept in Hin. destruct Hin as [_ [Hvisible _]].
    discriminate.
Defined.

Lemma decode_crash_reply_witness :
  log (snd (Server.handle_message (Some (PDict [("id", PInt 41)])) "[[[["
              (start listed)))
  = [Send (PDict [("id", PInt 41); ("success", PBool false);
                  ("error", PStr "maximum recursion depth exceeded")])].
Proof.
  assert (Hloads : json_loads "[[[["
                   = Raise (Exn OtherException "maximum recursion depth exceeded"))
    by (vm_compute; reflexivity).
  destruct (decode_crash_reply_has_stale_id "[[[[" _ (start listed) Hloads eq_refl)
    as [_ Hlast].
  apply (Hlast [("id", PInt 41)]).
Defined.

Lemma one_reply_per_request_witness :
  Server.handle_message None "{}" (start listed)
  = (Ret (Some (PDict [])),
     World listed
       [Send (PDict [("id", PNone); ("success", PBool false);
                     ("result", PDict [("success", PBool false);
                                       ("error", PStr "Unknown command: None")])])]
       ∅)
  /\ log (snd (Server.handle_message None "{}" (start hung_up)))
     = [Send (PDict [("id", PNone); ("success", PBool false);
                     ("result", PDict [("success", PBool false);
                                       ("error", PStr "Unknown command: None")])]);
        Send (PDict [("id", PNone); ("success", PBool false);
                     ("error", PStr "no close frame received or sent")])].
Proof.
  assert (Hloads : json_loads "{}" = Ret (PDict [])) by (vm_compute; reflexivity).
  assert (Hcommand : forall st,
            Server.process_command (PDict []) (start st)
            = (Ret (PDict [("id", PNone); ("success", PBool false);
                           ("result", PDict [("success", PBool false);
                                             ("error", PStr "Unknown command: None")])]),
               start st)) by (intros st; vm_compute; reflexivity).
  split.
  - apply (proj1 (one_reply_per_request None "{}" [] (start listed) (start listed)
                    _ Hloads (Hcommand listed)) listed).
    reflexivity.
  - apply (proj2 (one_reply_per_request None "{}" [] (start hung_up) (start hung_up)
                    _ Hloads (Hcommand hung_up))
             (Exn ConnectionClosed "no close frame received or sent") hung_up);
      reflexivity.
Defined.

End DeskRuns.

Section DeepRuns.
#[local] Existing Instance Deep.python.
#[local] Existing Instance Sample.constants.
#[local] Existing Instance Sample.terminal.


End DeepRuns.
